(** * Template tracking and face annotation: a shallow embedding

    The two scripts of the repository, [object_tracking.py] and
    [object_detection.py], are embedded as programs of a small state and
    exception monad.  The state holds what the scripts share with the
    outside: the pixel buffers of the numpy arrays, the camera handle, the
    open windows and the log of library calls.  The vision library is an
    interface ([CvLib]); the camera and the user are an oracle ([World]). *)

From Stdlib Require Import ZArith String Floats DecimalString Lia.
From stdpp Require Import base option list strings.

#[local] Set Warnings "-inexact-float".
#[local] Open Scope Z_scope.

(** ** Python values *)

(** A pixel position [(x, y)] and a rectangle [(x, y, width, height)], as
    the tuples of Python integers that OpenCV returns. *)
Definition Point : Type := Z * Z.
Definition ROI : Type := Z * Z * Z * Z.
Definition Color : Type := Z * Z * Z.

(** The sum of two numpy [int32] scalars, as the rows of a detection
    array hold them: it wraps around at 32 bits. *)
Definition int32_add (a b : Z) : Z :=
  (a + b + 2 ^ 31) mod 2 ^ 32 - 2 ^ 31.

(** [seq[a:b]] for a Python sequence (and for one axis of a numpy array):
    a negative bound counts from the end, and both bounds are clamped. *)
Definition py_index (n i : Z) : Z :=
  if i <? 0 then Z.max (i + n) 0 else Z.min i n.

Definition py_slice {A : Type} (a b : Z) (l : list A) : list A :=
  let n := Z.of_nat (length l) in
  let lo := py_index n a in
  let hi := py_index n b in
  take (Z.to_nat (hi - lo)) (drop (Z.to_nat lo) l).

(** *** [format(x, ".2f")] on a binary64 float

    Python rounds the exact binary value to two decimals, ties to even, and
    keeps the sign of a negative value that rounds to zero. *)
Definition round_half_even (num den : Z) : Z :=
  let q := num / den in
  let r := num mod den in
  match 2 * r ?= den with
  | Lt => q
  | Gt => q + 1
  | Eq => if Z.even q then q else q + 1
  end.

Definition digits (n : Z) : string :=
  NilZero.string_of_uint (N.to_uint (Z.to_N n)).

Definition two_digits (n : Z) : string :=
  if n <? 10 then "0" +:+ digits n else digits n.

Definition fixed2 (neg : bool) (num den : Z) : string :=
  let cents := round_half_even (100 * num) den in
  (if neg then "-" else "") +:+ digits (cents / 100) +:+ "."
    +:+ two_digits (cents mod 100).

Definition format_2f (x : float) : string :=
  match Prim2SF x with
  | S754_zero s => fixed2 s 0 1
  | S754_infinity s => (if s then "-" else "") +:+ "inf"
  | S754_nan => "nan"
  | S754_finite s m e =>
      if 0 <=? e then fixed2 s (Z.pos m * 2 ^ e) 1
      else fixed2 s (Z.pos m) (2 ^ (- e))
  end.

(** *** Exceptions *)

Inductive ExnClass := Exception | CvError | UnboundLocalError | SystemExit.

Record Exn := mkExn { exn_class : ExnClass; exn_str : string }.

(** [except Exception] catches every class above but [SystemExit], which
    derives from [BaseException] only. *)
Definition is_Exception (e : Exn) : bool :=
  match exn_class e with
  | SystemExit => false
  | _ => true
  end.

(** ** The vision library *)

Inductive CvResult (A : Type) :=
| CvOk (a : A)
| CvFail (msg : string).
Arguments CvOk {A} a.
Arguments CvFail {A} msg.

(** The calls whose result the scripts take as it comes: the matcher, the
    extremum search, the colour conversion, the cascade classifier and
    the drawing primitives.  The matcher, the conversion and the
    classifier may refuse their input with a [cv2.error]. *)
Class CvLib := {
  Pixel : Type;
  ScoreMatrix : Type;
  cv_data_haarcascades : string;
  cv_matchTemplate :
    list (list Pixel) -> list (list Pixel) -> Z -> CvResult ScoreMatrix;
  cv_minMaxLoc : ScoreMatrix -> float * float * Point * Point;
  cv_cvtColor : list (list Pixel) -> Z -> CvResult (list (list Pixel));
  cv_detectMultiScale :
    list (list Pixel) -> float -> Z -> CvResult (list ROI);
  cv_rectangle :
    list (list Pixel) -> Point -> Point -> Color -> Z -> list (list Pixel);
  cv_putText :
    list (list Pixel) -> string -> Point -> Z -> float -> Color -> Z ->
    list (list Pixel)
}.

(** The pixel grid of an array: rows of pixels. *)
Definition Image `{CvLib} : Type := list (list Pixel).

(** [cv2.flip(src, flipCode)]: positive mirrors around the vertical axis,
    zero around the horizontal one, negative around both. *)
Definition flip `{CvLib} (src : Image) (flipCode : Z) : Image :=
  if 0 <? flipCode then map (@rev Pixel) src
  else if flipCode =? 0 then rev src
  else rev (map (@rev Pixel) src).
Arguments flip : simpl never.

Definition TM_CCOEFF_NORMED : Z := 5.
Definition FONT_HERSHEY_SIMPLEX : Z := 0.
Definition COLOR_BGR2GRAY : Z := 6.

(** ** Arrays, camera and windows *)

(** An array that owns its buffer is the index of the buffer in the heap.
    A basic slice [a[y0:y1, x0:x1]] is a view: it has no pixels of its own
    and reads through to the buffer of the array it was cut from. *)
Definition ndarray : Type := nat.

Record ndview := mkView { base : ndarray; ys : Z * Z; xs : Z * Z }.

Inductive CamState := CamClosed | CamOpen.

Inductive Event `{CvLib} :=
| EvInput (prompt : string)
| EvPrint (line : string)
| EvCascadeClassifier (path : string)
| EvVideoCapture (index : Z)
| EvRead (ok : bool)
| EvRelease
| EvSelectROI (win : string) (img : Image)
| EvDestroyWindow (win : string)
| EvDestroyAllWindows
| EvWaitKey (delay key : Z)
| EvSlice (src : ndarray) (rows cols : Z * Z)
| EvCvtColor (src : Image) (code : Z)
| EvDetectMultiScale (gray : Image) (scaleFactor : float) (minNeighbors : Z)
| EvMatchTemplate (image templ : Image) (method : Z)
| EvRectangle (img : ndarray) (pt1 pt2 : Point) (color : Color) (thickness : Z)
| EvPutText (img : ndarray) (text : string) (org : Point) (fontFace : Z)
    (fontScale : float) (color : Color) (thickness : Z)
| EvImshow (win : string) (img : Image).

Record State `{CvLib} := mkState {
  heap : list Image;       (* buffers, in allocation order *)
  camera : CamState;       (* whether the process holds the device *)
  windows : list string;   (* HighGUI windows now open *)
  reads : nat;             (* calls of [read] so far *)
  keys : nat;              (* calls of [waitKey] so far *)
  log : list Event         (* library calls and prints, oldest first *)
}.
Arguments mkState {_} heap camera windows reads keys log.

(** What the program cannot decide: whether the device opens, what each
    read delivers ([None] for an unsuccessful read), the rectangle the user
    drags and the key each [waitKey] returns. *)
Record World `{CvLib} := mkWorld {
  camera_opens : bool;
  camera_frame : nat -> option Image;
  user_roi : Image -> ROI;
  key_press : nat -> Z
}.
Arguments mkWorld {_} camera_opens camera_frame user_roi key_press.

Definition initial_state `{CvLib} : State :=
  mkState [] CamClosed [] 0 0 [].

(** ** The monad of the scripts *)

Inductive Res (A : Type) :=
| Ok (a : A)
| Raise (e : Exn)
| Pending.              (* the loop is still running when the fuel ends *)
Arguments Ok {A} a.
Arguments Raise {A} e.
Arguments Pending {A}.

Definition M `{CvLib} (A : Type) : Type := State -> Res A * State.

Definition ret `{CvLib} {A : Type} (a : A) : M A := fun s => (Ok a, s).

Definition bind `{CvLib} {A B : Type} (m : M A) (k : A -> M B) : M B :=
  fun s =>
    match m s with
    | (Ok a, s') => k a s'
    | (Raise e, s') => (Raise e, s')
    | (Pending, s') => (Pending, s')
    end.

Definition raise `{CvLib} {A : Type} (e : Exn) : M A := fun s => (Raise e, s).

Definition pending `{CvLib} {A : Type} : M A := fun s => (Pending, s).

(** [try: m  except Exception as e: handler e] *)
Definition try_except `{CvLib} {A : Type} (m : M A) (handler : Exn -> M A) : M A :=
  fun s =>
    match m s with
    | (Raise e, s') => if is_Exception e then handler e s' else (Raise e, s')
    | r => r
    end.

Declare Scope py_scope.
Delimit Scope py_scope with py.
Notation "x <- m ;; k" := (bind m (fun x => k))
  (at level 20, m at level 99, k at level 200) : py_scope.
Notation "' p <- m ;; k" := (bind m (fun x => let 'p := x in k))
  (at level 20, p pattern, m at level 99, k at level 200) : py_scope.
Notation "m ;;; k" := (bind m (fun _ => k))
  (at level 100, k at level 200, right associativity) : py_scope.
#[local] Open Scope py_scope.

(** Reading a local variable that no assignment has reached yet. *)
Definition read_local `{CvLib} {A : Type} (name : string) (v : option A) : M A :=
  match v with
  | Some a => ret a
  | None =>
      raise (mkExn UnboundLocalError
        ("cannot access local variable '" +:+ name
           +:+ "' where it is not associated with a value"))
  end.

Section Runtime.
Context `{CvLib} (w : World).

Definition emit (e : Event) : M unit :=
  fun s => (Ok tt, mkState (heap s) (camera s) (windows s) (reads s) (keys s)
                     (log s ++ [e])).

Definition print (line : string) : M unit := emit (EvPrint line).

Definition input (prompt : string) : M unit := emit (EvInput prompt).

(** [exit()] *)
Definition py_exit {A : Type} : M A := raise (mkExn SystemExit "").

(** A new array: its buffer goes at the end of the heap. *)
Definition alloc (img : Image) : M ndarray :=
  fun s => (Ok (length (heap s)),
            mkState (heap s ++ [img]) (camera s) (windows s) (reads s)
              (keys s) (log s)).

Definition pixels (s : State) (a : ndarray) : Image := heap s !!! a.

(** The pixels a view shows: rows [ys], columns [xs] of its buffer. *)
Definition view_of (heap : list Image) (v : ndview) : Image :=
  map (py_slice (xs v).1 (xs v).2)
      (py_slice (ys v).1 (ys v).2 (heap !!! base v)).

Definition view_pixels (s : State) (v : ndview) : Image :=
  view_of (heap s) v.

(** [cv2.VideoCapture(index)] *)
Definition VideoCapture (index : Z) : M unit :=
  fun s => (Ok tt,
            mkState (heap s) (if camera_opens w then CamOpen else camera s)
              (windows s) (reads s) (keys s) (log s ++ [EvVideoCapture index])).

Definition isOpened : M bool :=
  fun s => (Ok match camera s with CamOpen => true | CamClosed => false end, s).

(** What the next read delivers: [None] stands for [(False, None)], and
    a device that is not held delivers nothing. *)
Definition next_frame (s : State) : option Image :=
  match camera s with
  | CamOpen => camera_frame w (reads s)
  | CamClosed => None
  end.

(** [camera.read()] *)
Definition read : M (option Image) :=
  fun s =>
    let r := next_frame s in
    (Ok r, mkState (heap s) (camera s) (windows s) (S (reads s)) (keys s)
             (log s ++ [EvRead match r with Some _ => true | None => false end])).

Definition release : M unit :=
  fun s => (Ok tt, mkState (heap s) CamClosed (windows s) (reads s) (keys s)
                     (log s ++ [EvRelease])).

Definition open_window (win : string) (ws : list string) : list string :=
  if bool_decide (win ∈ ws) then ws else ws ++ [win].

Definition selectROI (win : string) (img : ndarray) : M ROI :=
  fun s => (Ok (user_roi w (pixels s img)),
            mkState (heap s) (camera s) (open_window win (windows s))
              (reads s) (keys s) (log s ++ [EvSelectROI win (pixels s img)])).

Definition destroyWindow (win : string) : M unit :=
  fun s => (Ok tt,
            mkState (heap s) (camera s)
              (filter (fun x => x ≠ win) (windows s))
              (reads s) (keys s) (log s ++ [EvDestroyWindow win])).

Definition destroyAllWindows : M unit :=
  fun s => (Ok tt, mkState (heap s) (camera s) [] (reads s) (keys s)
                     (log s ++ [EvDestroyAllWindows])).

Definition waitKey (delay : Z) : M Z :=
  fun s => (Ok (key_press w (keys s)),
            mkState (heap s) (camera s) (windows s) (reads s) (S (keys s))
              (log s ++ [EvWaitKey delay (key_press w (keys s))])).

Definition imshow (win : string) (img : ndarray) : M unit :=
  fun s => (Ok tt,
            mkState (heap s) (camera s) (open_window win (windows s))
              (reads s) (keys s) (log s ++ [EvImshow win (pixels s img)])).

(** [a[rows, cols]] on a numpy array: a view, no pixel is copied. *)
Definition slice (a : ndarray) (rows cols : Z * Z) : M ndview :=
  emit (EvSlice a rows cols) ;;;
  ret (mkView a rows cols).

(** [cv2.flip] returns a new array. *)
Definition cv2_flip (src : Image) (flipCode : Z) : M ndarray :=
  alloc (flip src flipCode).

(** [cv2.cvtColor] returns a new array, or raises a [cv2.error] on a
    frame the conversion does not apply to. *)
Definition cvtColor (src : ndarray) (code : Z) : M ndarray :=
  fun s =>
    let s' := mkState (heap s) (camera s) (windows s) (reads s) (keys s)
                (log s ++ [EvCvtColor (pixels s src) code]) in
    match cv_cvtColor (pixels s src) code with
    | CvOk dst => alloc dst s'
    | CvFail msg => (Raise (mkExn CvError msg), s')
    end.

(** [face_cascade.detectMultiScale]: the rows of the detection array, or
    a [cv2.error], as from a classifier whose model did not load. *)
Definition detectMultiScale (gray : ndarray) (scaleFactor : float)
    (minNeighbors : Z) : M (list ROI) :=
  fun s =>
    let s' := mkState (heap s) (camera s) (windows s) (reads s) (keys s)
                (log s ++ [EvDetectMultiScale (pixels s gray) scaleFactor
                             minNeighbors]) in
    match cv_detectMultiScale (pixels s gray) scaleFactor minNeighbors with
    | CvOk faces => (Ok faces, s')
    | CvFail msg => (Raise (mkExn CvError msg), s')
    end.

(** [cv2.matchTemplate] reads the frame and, through the view, the
    buffer the template was cut from; a [cv2.error] is an [Exception]. *)
Definition matchTemplate (image : ndarray) (templ : ndview) (method : Z)
    : M ScoreMatrix :=
  fun s =>
    let s' := mkState (heap s) (camera s) (windows s) (reads s) (keys s)
                (log s ++ [EvMatchTemplate (pixels s image)
                             (view_pixels s templ) method]) in
    match cv_matchTemplate (pixels s image) (view_pixels s templ) method with
    | CvOk r => (Ok r, s')
    | CvFail msg => (Raise (mkExn CvError msg), s')
    end.

(** The drawing calls write into the array they are given. *)
Definition rectangle (img : ndarray) (pt1 pt2 : Point) (color : Color)
    (thickness : Z) : M unit :=
  fun s => (Ok tt,
            mkState (<[img := cv_rectangle (pixels s img) pt1 pt2 color
                                thickness]> (heap s))
              (camera s) (windows s) (reads s) (keys s)
              (log s ++ [EvRectangle img pt1 pt2 color thickness])).

Definition putText (img : ndarray) (text : string) (org : Point)
    (fontFace : Z) (fontScale : float) (color : Color) (thickness : Z)
    : M unit :=
  fun s => (Ok tt,
            mkState (<[img := cv_putText (pixels s img) text org fontFace
                                fontScale color thickness]> (heap s))
              (camera s) (windows s) (reads s) (keys s)
              (log s ++ [EvPutText img text org fontFace fontScale color
                           thickness])).

(** [for x in xs: body x] *)
Fixpoint for_each {A : Type} (l : list A) (body : A -> M unit) : M unit :=
  match l with
  | [] => ret tt
  | x :: l' => body x ;;; for_each l' body
  end.
End Runtime.

(** ** [object_tracking.py] *)

Module ObjectTracking.

Definition MATCHING_METHOD : Z := TM_CCOEFF_NORMED.
Definition MIN_THRESHOLD : float := 0.8%float.
Definition FONT_SIZE : float := 0.5%float.
Definition FONT_COLOR : Color := (0, 255, 0).
Definition FONT_THICKNESS : Z := 2.

(** [ord('q')] *)
Definition ord_q : Z := 113.

(** [get_tl_and_br_coordinates(max_loc, roi)] *)
Definition get_tl_and_br_coordinates (max_loc : Point) (roi : ROI)
    : Point * Point :=
  let top_left_coordinates := max_loc in
  let '(top_left_x, top_left_y) := top_left_coordinates in
  let '(_, _, roi_width, roi_height) := roi in
  let bottom_right_coordinates :=
    (top_left_x + roi_width, top_left_y + roi_height) in
  (top_left_coordinates, bottom_right_coordinates).

Section Program.
Context `{CvLib} (w : World).

(** How a pass through the loop body ends. *)
Inductive Flow :=
| Break
| Continue (result : option ScoreMatrix).

(** [get_result(result)] *)
Definition get_result (result : ScoreMatrix) : float * Point :=
  let '(min_val, max_val, min_loc, max_loc) := cv_minMaxLoc result in
  if (max_val <? MIN_THRESHOLD)%float then (0%float, (0, 0))
  else (max_val, max_loc).

(** [get_frame(camera)] *)
Definition get_frame : M ndarray :=
  got <- read w ;;
  match got with
  | None => raise (mkExn Exception "Failed to read frame from camera")
  | Some frame => cv2_flip frame 1
  end.

(** [get_template(roi, frame)] *)
Definition get_template (roi : ROI) (frame : ndarray) : M ndview :=
  let '(roi_x, roi_y, roi_width, roi_height) := roi in
  template <- slice frame (roi_y, roi_y + roi_height)
                (roi_x, roi_x + roi_width) ;;
  ret template.

(** [get_roi(frame)] *)
Definition get_roi (frame : ndarray) : M ROI :=
  roi <- selectROI w "Select ROI" frame ;;
  destroyWindow "Select ROI" ;;;
  _ <- waitKey w 1 ;;
  ret roi.

(** [draw_rectangle(frame, max_val, top_left, bottom_right)] *)
Definition draw_rectangle (frame : ndarray) (max_val : float)
    (top_left bottom_right : Point) : M unit :=
  let '(top_left_x, top_left_y) := top_left in
  let text_position := (top_left_x, top_left_y - 10) in
  rectangle frame top_left bottom_right (0, 255, 0) 2 ;;;
  putText frame ("Match: " +:+ format_2f max_val) text_position
    FONT_HERSHEY_SIMPLEX FONT_SIZE FONT_COLOR FONT_THICKNESS.

(** Lines 187 to 193 of [main]: the result is read, thresholded, and
    the box drawn when the gate passes.  [result] is the local variable
    of that name: [None] while no assignment has reached it. *)
Definition annotate (frame : ndarray) (roi : ROI)
    (result : option ScoreMatrix) : M unit :=
  result <- read_local "result" result ;;
  let '(res_val, res_loc) := get_result result in
  if (MIN_THRESHOLD <=? res_val)%float then
    let '(top_left, bottom_right) :=
      get_tl_and_br_coordinates res_loc roi in
    draw_rectangle frame res_val top_left bottom_right
  else ret tt.

(** One pass through the body of the [while True] loop of [main]:
    [Break] for a [break], [Continue] for reaching the end of the
    body.  The local [result] outlives the pass, so it is handed on. *)
Definition iteration (roi : ROI) (template : ndview)
    (result : option ScoreMatrix) : M Flow :=
  got <- try_except
           (frame <- get_frame ;; ret (Some frame))
           (fun e => print ("Camera error: " +:+ exn_str e) ;;;
                     ret None) ;;
  match got with
  | None => ret Break
  | Some frame =>
      result <- try_except
                  (r <- matchTemplate frame template MATCHING_METHOD ;;
                   ret (Some r))
                  (fun e =>
                     print ("Processing error: " +:+ exn_str e) ;;;
                     ret result) ;;
      annotate frame roi result ;;;
      imshow "Camera Feed" frame ;;;
      key <- waitKey w 1 ;;
      if key =? ord_q then ret Break
      else ret (Continue result)
  end.

(** The loop: [fuel] bounds the number of passes that are unfolded. *)
Fixpoint tracking_loop (fuel : nat) (roi : ROI) (template : ndview)
    (result : option ScoreMatrix) : M unit :=
  match fuel with
  | O => pending
  | S fuel' =>
      flow <- iteration roi template result ;;
      match flow with
      | Break => ret tt
      | Continue result => tracking_loop fuel' roi template result
      end
  end.

(** Lines 202 to 204: what follows the loop. *)
Definition cleanup : M unit :=
  release ;;;
  destroyAllWindows.

(** [main()] *)
Definition main (fuel : nat) : M unit :=
  VideoCapture w 0 ;;;
  opened <- isOpened ;;
  if negb opened then print "Error: Could not open camera"
  else
    sample_frame <- get_frame ;;
    roi <- get_roi sample_frame ;;
    let '(_, _, roi_2, roi_3) := roi in
    if (roi_2 =? 0) || (roi_3 =? 0) then
      print "Error: Invalid ROI selection" ;;;
      release
    else
      template <- get_template roi sample_frame ;;
      tracking_loop fuel roi template None ;;;
      cleanup.
End Program.

End ObjectTracking.

(** ** [object_detection.py] *)

Module ObjectDetection.

Definition HAARCASCADE_MODEL : string := "haarcascade_frontalface_default.xml".
Definition BORDER_COLOR : Color := (0, 255, 0).
Definition BORDER_THICKNESS : Z := 2.

Section Program.
Context `{CvLib} (w : World).

(** The module's top level, line by line.  The rows of [faces] are
    numpy [int32], so the two sums of line 48 are 32-bit sums. *)
Definition script : M unit :=
  input "Look at the camera. Press Enter to start face detection..." ;;;
  emit (EvCascadeClassifier (cv_data_haarcascades +:+ HAARCASCADE_MODEL)) ;;;
  VideoCapture w 0 ;;;
  got <- read w ;;
  match got with
  | None =>
      print "Error: Failed to grab initial frame from camera" ;;;
      py_exit
  | Some frame =>
      mirrored_frame <- cv2_flip frame 1 ;;
      gray <- cvtColor mirrored_frame COLOR_BGR2GRAY ;;
      faces <- detectMultiScale gray 1.1%float 5 ;;
      for_each faces
        (fun '(x_coord, y_coord, width, height) =>
           rectangle mirrored_frame (x_coord, y_coord)
             (int32_add x_coord width, int32_add y_coord height)
             BORDER_COLOR BORDER_THICKNESS) ;;;
      imshow "Face Detection" mirrored_frame ;;;
      _ <- waitKey w 0 ;;
      release ;;;
      destroyAllWindows
  end.
End Program.

End ObjectDetection.

(** ** A test double of the vision library

    Camera frames have three channels.  The matcher applies the size
    check of OpenCV and otherwise reports one candidate at the origin: a
    strong one when the image starts with the template's first pixel, a
    weak one when it does not.  The conversion to grey refuses a frame
    that is not of three channels.  The drawing calls paint the box, so
    that a drawn frame differs from an untouched one. *)

Module Mock.

(** A pixel of one channel or of three. *)
Inductive pixel :=
| Grey (v : Z)
| BGR (b g r : Z).

Definition pixel_eqb (p q : pixel) : bool :=
  match p, q with
  | Grey v, Grey v' => v =? v'
  | BGR b g r, BGR b' g' r' => (b =? b') && (g =? g') && (r =? r')
  | _, _ => false
  end.

(** A colour frame, and a grey one, from a table of levels. *)
Definition bgr (levels : list (list Z)) : list (list pixel) :=
  map (map (fun v => BGR v v v)) levels.

Definition grey (levels : list (list Z)) : list (list pixel) :=
  map (map Grey) levels.

Definition width {A : Type} (img : list (list A)) : nat :=
  match img with
  | [] => 0%nat
  | row :: _ => length row
  end.

(** The size check of [cv2.matchTemplate]: an image that is smaller than
    the template in one dimension must not be larger in the other (the
    two are then swapped). *)
Definition sizes_accepted (image templ : list (list pixel)) : bool :=
  if (length image <? length templ)%nat || (width image <? width templ)%nat
  then (length image <=? length templ)%nat
       && (width image <=? width templ)%nat
  else true.

Definition first_pixel (img : list (list pixel)) : option pixel :=
  match img with
  | (p :: _) :: _ => Some p
  | _ => None
  end.

Definition same_start (image templ : list (list pixel)) : bool :=
  match first_pixel image, first_pixel templ with
  | Some p, Some q => pixel_eqb p q
  | None, None => true
  | _, _ => false
  end.

Definition size_error : string :=
  "(-215:Assertion failed) _img.size().height <= _templ.size().height && _img.size().width <= _templ.size().width in function 'matchTemplate'".

Definition matcher (image templ : list (list pixel)) (method : Z)
    : CvResult (float * float * Point * Point) :=
  if sizes_accepted image templ then
    if same_start image templ
    then CvOk (0%float, 0.95%float, (0, 0), (0, 0))
    else CvOk (0%float, 0.5%float, (0, 0), (0, 0))
  else CvFail size_error.

(** [COLOR_BGR2GRAY] applies to frames of three channels only. *)
Definition is_bgr (p : pixel) : bool :=
  match p with
  | BGR _ _ _ => true
  | Grey _ => false
  end.

(** The grey level the double gives a colour pixel is its green. *)
Definition to_grey (p : pixel) : pixel :=
  match p with
  | BGR b g r => Grey g
  | Grey v => Grey v
  end.

Definition convert (img : list (list pixel)) (code : Z)
    : CvResult (list (list pixel)) :=
  if (code =? COLOR_BGR2GRAY) && forallb (forallb is_bgr) img
  then CvOk (map (map to_grey) img)
  else
    CvFail "(-15:Bad number of channels) in function 'cvtColor'".

(** The classifier is loaded; it finds one face, in the top left corner
    of any frame of at least two rows and two columns. *)
Definition detect (img : list (list pixel)) (scaleFactor : float)
    (minNeighbors : Z) : CvResult (list ROI) :=
  if (2 <=? length img)%nat && (2 <=? width img)%nat
  then CvOk [(0, 0, 1, 1)]
  else CvOk [].

Definition ink (color : Color) (p : pixel) : pixel :=
  match p with
  | BGR _ _ _ => BGR color.1.1 color.1.2 color.2
  | Grey _ => Grey color.1.1
  end.

Definition paint (img : list (list pixel)) (pt1 pt2 : Point) (color : Color)
    : list (list pixel) :=
  imap (fun y row =>
          imap (fun x p =>
                  if (pt1.1 <=? Z.of_nat x) && (Z.of_nat x <=? pt2.1)
                     && (pt1.2 <=? Z.of_nat y) && (Z.of_nat y <=? pt2.2)
                  then ink color p else p) row) img.

#[export] Instance lib : CvLib := {|
  Pixel := pixel;
  ScoreMatrix := float * float * Point * Point;
  cv_data_haarcascades := "/usr/share/opencv4/haarcascades/";
  cv_matchTemplate := matcher;
  cv_minMaxLoc := fun r => r;
  cv_cvtColor := convert;
  cv_detectMultiScale := detect;
  cv_rectangle := fun img pt1 pt2 color _ => paint img pt1 pt2 color;
  cv_putText := fun img _ org _ _ color _ => paint img org org color
|}.

Definition big_frame : list (list pixel) :=
  bgr [[1; 2; 3]; [4; 5; 6]; [7; 8; 9]].

(** One row of three pixels: lower than a template of two rows, and
    wider than one of two columns. *)
Definition strip_frame : list (list pixel) := bgr [[1; 2; 3]].

(** Worlds for the test double: no key is ever pressed. *)

(** The user releases the mouse without dragging: a ROI of width 0. *)
Definition empty_selection : World :=
  mkWorld true (fun _ => Some big_frame) (fun _ => (1, 1, 0, 2))
    (fun _ => -1).

(** The device opens and then delivers nothing. *)
Definition unplugged : World :=
  mkWorld true (fun _ => None) (fun _ => (0, 0, 2, 2)) (fun _ => -1).

(** The frame that follows the sample is a strip, which the matcher
    refuses for a template of two rows and two columns. *)
Definition shrinking : World :=
  mkWorld true
    (fun n => match n with
              | 0%nat => Some big_frame
              | _ => Some strip_frame
              end)
    (fun _ => (0, 0, 2, 2)) (fun _ => -1).

(** Three frames of a still scene, then the device stops. *)
Definition steady : World :=
  mkWorld true
    (fun n => if (n <? 3)%nat then Some big_frame else None)
    (fun _ => (0, 0, 2, 2)) (fun _ => -1).


(** Two frames of the scene, then a strip. *)
Definition shrinking_later : World :=
  mkWorld true
    (fun n => if (n <? 2)%nat then Some big_frame else Some strip_frame)
    (fun _ => (0, 0, 2, 2)) (fun _ => -1).

(** The device cannot be opened. *)
Definition no_camera : World :=
  mkWorld false (fun _ => Some big_frame) (fun _ => (0, 0, 2, 2))
    (fun _ => -1).

(** A still scene in which [q] is held down. *)
Definition quitting : World :=
  mkWorld true (fun _ => Some big_frame) (fun _ => (0, 0, 2, 2))
    (fun _ => 113).

End Mock.

(** ** What a run may touch

    [unchanged_template template roi st st'] relates a state to a later
    one: the buffer under the template is the same, no buffer was lost,
    and every call logged in between that takes a template takes the
    pixels the view had in [st], and every box drawn has the size of
    [roi]. *)

Section Relation.
Context `{CvLib}.

Definition uses_template (T : Image) (roi : ROI) (e : Event) : Prop :=
  match e with
  | EvMatchTemplate _ templ _ => templ = T
  | EvRectangle _ pt1 pt2 _ _ =>
      let '(_, _, roi_width, roi_height) := roi in
      pt2 = (pt1.1 + roi_width, pt1.2 + roi_height)
  | _ => True
  end.

Definition unchanged_template (template : ndview) (roi : ROI)
    (st st' : State) : Prop :=
  (length (heap st) <= length (heap st'))%nat
  /\ heap st' !! base template = heap st !! base template
  /\ exists evs,
       log st' = log st ++ evs
       /\ Forall (uses_template (view_of (heap st) template) roi) evs.

(** The state in which [main] enters the loop, after a sample frame
    [raw] and the selection [(x, y, rw, rh)]. *)
Definition tracking_state (w : World) (raw : Image) (x y rw rh : Z) : State :=
  mkState [flip raw 1] CamOpen [] 1 1
    [EvVideoCapture 0; EvRead true; EvSelectROI "Select ROI" (flip raw 1);
     EvDestroyWindow "Select ROI"; EvWaitKey 1 (key_press w 0);
     EvSlice 0%nat (y, y + rh) (x, x + rw)].

(** The boxes of the face annotator: the calls it logs for a list of
    detections, and the frame after them. *)
Definition boxes_of (img : ndarray) (faces : list ROI) : list Event :=
  map (fun '(x_coord, y_coord, width, height) =>
         EvRectangle img (x_coord, y_coord)
           (int32_add x_coord width, int32_add y_coord height)
           ObjectDetection.BORDER_COLOR ObjectDetection.BORDER_THICKNESS)
      faces.

Definition draw_boxes (faces : list ROI) (frame : Image) : Image :=
  fold_left
    (fun drawn '(x_coord, y_coord, width, height) =>
       cv_rectangle drawn (x_coord, y_coord)
         (int32_add x_coord width, int32_add y_coord height)
         ObjectDetection.BORDER_COLOR ObjectDetection.BORDER_THICKNESS)
    faces frame.

(** The state in which [main] returns when the selection is refused. *)
Definition refused_state (w : World) (raw : Image) : State :=
  mkState [flip raw 1] CamClosed [] 1 1
    [EvVideoCapture 0; EvRead true; EvSelectROI "Select ROI" (flip raw 1);
     EvDestroyWindow "Select ROI"; EvWaitKey 1 (key_press w 0);
     EvPrint "Error: Invalid ROI selection"; EvRelease].
End Relation.

(** * Properties *)

(** ** Comparison of binary64 floats *)

Lemma SFcompare_antisym (x y : spec_float) :
  SFcompare y x = option_map CompOpp (SFcompare x y).
Proof.
  destruct x as [sx|sx| |sx mx ex], y as [sy|sy| |sy my ey]; simpl;
    try reflexivity;
    try (destruct sx; reflexivity);
    try (destruct sy; reflexivity);
    try (destruct sx, sy; reflexivity).
  change (PosDef.Pos.compare_cont Eq my mx) with (Pos.compare my mx).
  change (PosDef.Pos.compare_cont Eq mx my) with (Pos.compare mx my).
  rewrite (Z.compare_antisym ex ey), (Pos.compare_antisym mx my).
  destruct sx, sy; simpl; try reflexivity;
    destruct (ex ?= ey); reflexivity.
Qed.

(** [t <= s] excludes [s < t], also when one of them is not a number. *)
Lemma leb_not_ltb (t s : float) :
  (t <=? s)%float = true -> (s <? t)%float = false.
Proof.
  rewrite leb_spec, ltb_spec. unfold SFleb, SFltb.
  rewrite (SFcompare_antisym (Prim2SF t) (Prim2SF s)).
  destruct (SFcompare (Prim2SF t) (Prim2SF s)) as [[]|]; simpl; congruence.
Qed.

Lemma ltb_not_leb (t s : float) :
  (s <? t)%float = true -> (t <=? s)%float = false.
Proof.
  intros Hlt. destruct (t <=? s)%float eqn:Hle; [|reflexivity].
  apply leb_not_ltb in Hle. congruence.
Qed.

(** ** The box and the threshold gate *)

Import ObjectTracking.

(** C1: for every ROI [(x, y, w, h)] with [w > 0] and [h > 0] and every
    match location [(mx, my)], [get_tl_and_br_coordinates] returns the
    top-left corner [(mx, my)] and the bottom-right corner
    [(mx + w, my + h)]; for the ROI [(50, 50, 100, 80)] and the location
    [(10, 20)] these are [(10, 20)] and [(110, 100)]. *)
Theorem get_tl_and_br_coordinates_box :
  (forall x y w h mx my : Z,
      0 < w -> 0 < h ->
      get_tl_and_br_coordinates (mx, my) (x, y, w, h)
      = ((mx, my), (mx + w, my + h)))
  /\ get_tl_and_br_coordinates (10, 20) (50, 50, 100, 80)
     = ((10, 20), (110, 100)).
Proof.
  split.
  - intros x y w h mx my _ _. reflexivity.
  - reflexivity.
Qed.

Lemma get_tl_and_br_coordinates_box_scenario :
  0 < 100 /\ 0 < 80
  /\ get_tl_and_br_coordinates (10, 20) (50, 50, 100, 80)
     = ((10, 20), (10 + 100, 20 + 80)).
Proof.
  split; [reflexivity|]. split; [reflexivity|].
  apply (proj1 get_tl_and_br_coordinates_box 50 50 100 80 10 20);
    reflexivity.
Defined.

(** C10: the box does not depend on where the ROI was selected: two ROIs
    of the same width and height give, for the same match location, the
    same pair of corners, whatever their [x] and [y]. *)
Theorem get_tl_and_br_coordinates_ignores_position
    (x1 y1 x2 y2 w h : Z) (max_loc : Point) :
  get_tl_and_br_coordinates max_loc (x1, y1, w, h)
  = get_tl_and_br_coordinates max_loc (x2, y2, w, h).
Proof. destruct max_loc as [mx my]. reflexivity. Qed.

Section Gate.
Context `{CvLib}.

Lemma get_result_below (result : ScoreMatrix) min_val s min_loc loc :
  cv_minMaxLoc result = (min_val, s, min_loc, loc) ->
  (s <? MIN_THRESHOLD)%float = true ->
  get_result result = (0%float, (0, 0)).
Proof. intros Hmm Hlt. unfold get_result. rewrite Hmm, Hlt. reflexivity. Qed.

Lemma get_result_above (result : ScoreMatrix) min_val s min_loc loc :
  cv_minMaxLoc result = (min_val, s, min_loc, loc) ->
  (MIN_THRESHOLD <=? s)%float = true ->
  get_result result = (s, loc).
Proof.
  intros Hmm Hle. unfold get_result.
  rewrite Hmm, (leb_not_ltb _ _ Hle). reflexivity.
Qed.

(** C2: for every match score [s] below the threshold 0.8, whatever
    the match location, [get_result] returns the sentinel
    [(0.0, (0, 0))], and the loop body then draws nothing: the gate of
    lines 187 to 193 leaves the frame, and the whole state, as it was. *)
Theorem below_threshold_sentinel_no_box
    (result : ScoreMatrix) (min_val s : float) (min_loc loc : Point)
    (frame : ndarray) (roi : ROI) (st : State) :
  cv_minMaxLoc result = (min_val, s, min_loc, loc) ->
  (s <? MIN_THRESHOLD)%float = true ->
  get_result result = (0%float, (0, 0))
  /\ annotate frame roi (Some result) st = (Ok tt, st).
Proof.
  intros Hmm Hlt. pose proof (get_result_below _ _ _ _ _ Hmm Hlt) as Hres.
  split; [exact Hres|].
  unfold annotate, read_local, bind, ret. rewrite Hres. reflexivity.
Qed.

End Gate.

Lemma below_threshold_sentinel_no_box_at_half :
  let result := (0%float, 0.5%float, (0, 0), (10, 20)) in
  @cv_minMaxLoc Mock.lib result = (0%float, 0.5%float, (0, 0), (10, 20))
  /\ (0.5 <? MIN_THRESHOLD)%float = true
  /\ @get_result Mock.lib result = (0%float, (0, 0))
  /\ @annotate Mock.lib 0%nat (50, 50, 100, 80) (Some result) (@initial_state Mock.lib)
     = (Ok tt, @initial_state Mock.lib).
Proof.
  split; [reflexivity|]. split; [reflexivity|].
  apply (@below_threshold_sentinel_no_box Mock.lib
           (0%float, 0.5%float, (0, 0), (10, 20))
           0%float 0.5%float (0, 0) (10, 20)); reflexivity.
Defined.


(** ** Setup and the ways out of the loop *)

Section Tracking.
Context `{CvLib} (w : World).

Lemma main_refuses_roi (fuel : nat) (raw : Image) (x y rw rh : Z) :
  camera_opens w = true ->
  camera_frame w 0 = Some raw ->
  user_roi w (flip raw 1) = (x, y, rw, rh) ->
  (rw =? 0) || (rh =? 0) = true ->
  main w fuel initial_state = (Ok tt, refused_state w raw).
Proof.
  intros Hopen Hraw Hroi Hguard.
  unfold main, bind, VideoCapture, isOpened, get_frame, get_roi, bind,
    read, next_frame, cv2_flip, alloc, selectROI, destroyWindow, waitKey,
    ret, pixels, initial_state.
  cbn. rewrite Hopen. cbn. rewrite Hraw. cbn. rewrite Hroi, Hguard.
  reflexivity.
Qed.

(** C6: when the selected ROI has width 0 or height 0, [main] prints
    the error, releases the camera and returns.  The log ends there: no
    slice was taken for a template, and no frame was read for a pass
    through the loop, whatever the fuel. *)
Theorem invalid_roi_aborts
    (fuel : nat) (raw : Image) (x y rw rh : Z) :
  camera_opens w = true ->
  camera_frame w 0 = Some raw ->
  user_roi w (flip raw 1) = (x, y, rw, rh) ->
  rw = 0 \/ rh = 0 ->
  main w fuel initial_state
  = (Ok tt,
     mkState [flip raw 1] CamClosed [] 1 1
       [EvVideoCapture 0; EvRead true;
        EvSelectROI "Select ROI" (flip raw 1);
        EvDestroyWindow "Select ROI"; EvWaitKey 1 (key_press w 0);
        EvPrint "Error: Invalid ROI selection"; EvRelease]).
Proof.
  intros Hopen Hraw Hroi Hzero.
  apply (main_refuses_roi fuel raw x y rw rh Hopen Hraw Hroi).
  destruct Hzero as [-> | ->]; [reflexivity | apply orb_true_r].
Qed.

(** C7: when the read at the head of a pass fails, the exception of
    [get_frame] is caught, the loop is left and the cleanup runs: the
    camera is released, the windows are closed, and after the failed
    read the log holds the message and the two cleanup calls only. No
    frame is matched or shown, and no further read is made. *)
Theorem read_failure_breaks_and_cleans_up
    (fuel : nat) (roi : ROI) (template : ndview)
    (result : option ScoreMatrix) (st : State) :
  next_frame w st = None ->
  (tracking_loop w (S fuel) roi template result ;;; cleanup) st
  = (Ok tt,
     mkState (heap st) CamClosed [] (S (reads st)) (keys st)
       (log st ++
          [EvRead false;
           EvPrint "Camera error: Failed to read frame from camera";
           EvRelease; EvDestroyAllWindows])).
Proof.
  intros Hnone.
  unfold cleanup, tracking_loop, iteration, bind, try_except, get_frame,
    bind, read, release, destroyAllWindows, print, emit, raise, ret.
  rewrite Hnone. cbn. rewrite <- !app_assoc. reflexivity.
Qed.
End Tracking.

(** ** The single frame of the face annotator *)

Section Detection.
Context `{CvLib} (w : World).

(** C9: when the one frame cannot be captured, because the device did
    not open or because the read fails, the script prints the error and
    exits at once.  The log shows one read and then the message: no
    conversion, detection, drawing or display, and no second read. *)
Theorem capture_failure_exits_immediately :
  camera_opens w = false \/ camera_frame w 0 = None ->
  exists st',
    ObjectDetection.script w initial_state
    = (Raise (mkExn SystemExit ""), st')
    /\ heap st' = []
    /\ windows st' = []
    /\ reads st' = 1%nat
    /\ log st'
       = [EvInput "Look at the camera. Press Enter to start face detection...";
          EvCascadeClassifier
            (cv_data_haarcascades +:+ ObjectDetection.HAARCASCADE_MODEL);
          EvVideoCapture 0; EvRead false;
          EvPrint "Error: Failed to grab initial frame from camera"].
Proof.
  intros Hfail.
  assert (match (if camera_opens w then CamOpen else CamClosed) with
          | CamOpen => camera_frame w 0
          | CamClosed => None
          end = None) as Hnone.
  { destruct Hfail as [-> | Hread]; [reflexivity|].
    destruct (camera_opens w); [exact Hread | reflexivity]. }
  unfold ObjectDetection.script, bind, input, print, emit, VideoCapture,
    read, next_frame, py_exit, raise, initial_state.
  cbn. rewrite Hnone. cbn. eexists. repeat split; reflexivity.
Qed.
End Detection.

(** ** The template during a run *)

Section Template.
Context `{CvLib} (w : World).

Lemma view_of_lookup (h h' : list Image) (v : ndview) :
  h' !! base v = h !! base v -> view_of h' v = view_of h v.
Proof.
  intros Heq. unfold view_of. do 2 f_equal.
  rewrite !list_lookup_total_alt. exact (f_equal (default inhabitant) Heq).
Qed.

Lemma unchanged_template_refl template roi st :
  unchanged_template template roi st st.
Proof.
  split; [lia|]. split; [reflexivity|].
  exists []. split; [symmetry; apply app_nil_r | constructor].
Qed.

Lemma unchanged_template_trans template roi st1 st2 st3 :
  unchanged_template template roi st1 st2 ->
  unchanged_template template roi st2 st3 ->
  unchanged_template template roi st1 st3.
Proof.
  intros (Hlen1 & Hbuf1 & evs1 & Hlog1 & Hev1)
         (Hlen2 & Hbuf2 & evs2 & Hlog2 & Hev2).
  split; [lia|]. split; [congruence|].
  exists (evs1 ++ evs2). split.
  - rewrite Hlog2, Hlog1, app_assoc. reflexivity.
  - apply Forall_app. split; [exact Hev1|].
    rewrite <- (view_of_lookup _ _ _ Hbuf1). exact Hev2.
Qed.

Lemma bind_ok {A B : Type} (m : M A) (k : A -> M B) st a st1 :
  m st = (Ok a, st1) -> bind m k st = k a st1.
Proof. intros Hm. unfold bind. rewrite Hm. reflexivity. Qed.

Lemma bind_unchanged {A B : Type} (m : M A) (k : A -> M B) template roi st :
  unchanged_template template roi st (m st).2 ->
  (forall a, (m st).1 = Ok a ->
             unchanged_template template roi (m st).2 (k a (m st).2).2) ->
  unchanged_template template roi st (bind m k st).2.
Proof.
  unfold bind. destruct (m st) as [[a|e|] st1]; simpl; intros Hm Hk;
    [|exact Hm|exact Hm].
  eapply unchanged_template_trans; [exact Hm|]. apply Hk. reflexivity.
Qed.

Lemma try_except_unchanged {A : Type} (m : M A) (handler : Exn -> M A)
    template roi st :
  unchanged_template template roi st (m st).2 ->
  (forall e, unchanged_template template roi (m st).2
               (handler e (m st).2).2) ->
  unchanged_template template roi st (try_except m handler st).2.
Proof.
  unfold try_except. destruct (m st) as [[a|e|] st1]; simpl; intros Hm Hh;
    [exact Hm| |exact Hm].
  destruct (is_Exception e); [|exact Hm].
  eapply unchanged_template_trans; [exact Hm|]. apply Hh.
Qed.

(** A call that logs one event which takes no template and draws no box,
    and leaves the buffers alone. *)
Lemma logged_unchanged template roi st st' e :
  heap st' = heap st ->
  log st' = log st ++ [e] ->
  uses_template (view_of (heap st) template) roi e ->
  unchanged_template template roi st st'.
Proof.
  intros Hheap Hlog He. unfold unchanged_template. rewrite Hheap.
  split; [lia|]. split; [reflexivity|].
  exists [e]. split; [exact Hlog|]. constructor; [exact He | constructor].
Qed.

Lemma print_unchanged template roi line st :
  unchanged_template template roi st (print line st).2.
Proof. eapply logged_unchanged; [reflexivity | reflexivity | exact I]. Qed.

Lemma imshow_unchanged template roi win img st :
  unchanged_template template roi st (imshow win img st).2.
Proof. eapply logged_unchanged; [reflexivity | reflexivity | exact I]. Qed.

Lemma waitKey_unchanged template roi delay st :
  unchanged_template template roi st (waitKey w delay st).2.
Proof. eapply logged_unchanged; [reflexivity | reflexivity | exact I]. Qed.

Lemma ret_unchanged {A : Type} template roi (a : A) st :
  unchanged_template template roi st (ret a st).2.
Proof. apply unchanged_template_refl. Qed.

(** The matcher is handed the pixels the view has now. *)
Lemma matchTemplate_unchanged template roi frame method st :
  unchanged_template template roi st
    (matchTemplate frame template method st).2.
Proof.
  unfold matchTemplate.
  destruct (cv_matchTemplate _ _ _);
    (eapply logged_unchanged; [reflexivity | reflexivity | reflexivity]).
Qed.

(** A drawing call on another array leaves the buffer of the template. *)
Lemma drawn_unchanged template roi st st' frame img e :
  frame <> base template ->
  heap st' = <[frame := img]> (heap st) ->
  log st' = log st ++ [e] ->
  uses_template (view_of (heap st) template) roi e ->
  unchanged_template template roi st st'.
Proof.
  intros Hne Hheap Hlog He. unfold unchanged_template. rewrite Hheap.
  split; [rewrite length_insert; lia|].
  split; [apply list_lookup_insert_ne; exact Hne|].
  exists [e]. split; [exact Hlog|]. constructor; [exact He | constructor].
Qed.

Lemma draw_rectangle_unchanged template x y rw rh frame max_val mx my st :
  frame <> base template ->
  unchanged_template template (x, y, rw, rh) st
    (draw_rectangle frame max_val (mx, my) (mx + rw, my + rh) st).2.
Proof.
  intros Hne. unfold draw_rectangle. apply bind_unchanged.
  - eapply drawn_unchanged; [exact Hne | reflexivity | reflexivity |].
    reflexivity.
  - intros _ _.
    eapply drawn_unchanged; [exact Hne | reflexivity | reflexivity |].
    exact I.
Qed.

(** Lines 187 to 193: nothing, or a box of the size of the ROI drawn on
    the current frame. *)
Lemma annotate_unchanged template roi frame result st :
  frame <> base template ->
  unchanged_template template roi st (annotate frame roi result st).2.
Proof.
  intros Hne. unfold annotate. apply bind_unchanged.
  - destruct result; apply unchanged_template_refl.
  - intros r _. destruct (get_result r) as [res_val [mx my]].
    destruct roi as [[[x y] rw] rh].
    destruct (MIN_THRESHOLD <=? res_val)%float.
    + apply draw_rectangle_unchanged. exact Hne.
    + apply unchanged_template_refl.
Qed.

(** The head of a pass: the read, and the frame or the way out. *)
Lemma grab_frame_eq st :
  try_except (frame <- get_frame w ;; ret (Some frame))
    (fun e => print ("Camera error: " +:+ exn_str e) ;;; ret None) st
  = match next_frame w st with
    | Some raw =>
        (Ok (Some (length (heap st))),
         mkState (heap st ++ [flip raw 1]) (camera st) (windows st)
           (S (reads st)) (keys st) (log st ++ [EvRead true]))
    | None =>
        (Ok None,
         mkState (heap st) (camera st) (windows st) (S (reads st))
           (keys st)
           (log st ++
              [EvRead false;
               EvPrint "Camera error: Failed to read frame from camera"]))
    end.
Proof.
  unfold try_except, get_frame, bind, read, cv2_flip, alloc, raise, ret,
    print, emit.
  destruct (next_frame w st) as [raw|]; cbn; [reflexivity|].
  rewrite <- app_assoc. reflexivity.
Qed.

(** One pass through the loop body. *)
Lemma iteration_unchanged_template roi template result st :
  (base template < length (heap st))%nat ->
  unchanged_template template roi st (iteration w roi template result st).2.
Proof.
  intros Hbase. unfold iteration.
  pose proof (grab_frame_eq st) as Hgrab.
  destruct (next_frame w st) as [raw|].
  - rewrite (bind_ok _ _ _ _ _ Hgrab).
    match type of Hgrab with
    | _ = (_, ?st1) => apply (unchanged_template_trans _ _ _ st1)
    end.
    { split; [simpl; rewrite length_app; simpl; lia|].
      split; [apply lookup_app_l; exact Hbase|].
      exists [EvRead true]. split; [reflexivity|].
      constructor; [exact I | constructor]. }
    assert (length (heap st) <> base template) as Hne by lia.
    apply bind_unchanged.
    { apply try_except_unchanged.
      - apply bind_unchanged; [apply matchTemplate_unchanged|].
        intros; apply ret_unchanged.
      - intros e. apply bind_unchanged; [apply print_unchanged|].
        intros; apply ret_unchanged. }
    intros result' _.
    apply bind_unchanged; [apply annotate_unchanged; exact Hne|].
    intros _ _.
    apply bind_unchanged; [apply imshow_unchanged|].
    intros _ _.
    apply bind_unchanged; [apply waitKey_unchanged|].
    intros key _. destruct (key =? ord_q); apply ret_unchanged.
  - rewrite (bind_ok _ _ _ _ _ Hgrab). simpl.
    split; [simpl; lia|]. split; [reflexivity|].
    eexists. split; [reflexivity|].
    repeat constructor.
Qed.

(** The loop, whatever the fuel and however it ends. *)
Lemma tracking_loop_unchanged_template fuel roi template :
  forall result st,
    (base template < length (heap st))%nat ->
    unchanged_template template roi st
      (tracking_loop w fuel roi template result st).2.
Proof.
  induction fuel as [|fuel IH]; intros result st Hbase.
  - apply unchanged_template_refl.
  - simpl. apply bind_unchanged.
    + apply iteration_unchanged_template. exact Hbase.
    + intros [|result'] _; [apply ret_unchanged|].
      apply IH.
      pose proof (iteration_unchanged_template roi template result st Hbase)
        as (Hlen & _).
      lia.
Qed.
End Template.

Section TemplateRun.
Context `{CvLib} (w : World).

Lemma main_enters_loop (fuel : nat) (raw : Image) (x y rw rh : Z) :
  camera_opens w = true ->
  camera_frame w 0 = Some raw ->
  user_roi w (flip raw 1) = (x, y, rw, rh) ->
  (rw =? 0) || (rh =? 0) = false ->
  main w fuel initial_state
  = (tracking_loop w fuel (x, y, rw, rh)
       (mkView 0%nat (y, y + rh) (x, x + rw)) None ;;; cleanup)
      (tracking_state w raw x y rw rh).
Proof.
  intros Hopen Hraw Hroi Hguard.
  unfold main, bind, VideoCapture, isOpened, get_frame, get_roi, bind,
    read, next_frame, cv2_flip, alloc, selectROI, destroyWindow, waitKey,
    ret, pixels, initial_state, get_template, slice, emit, bind, ret.
  cbn. rewrite Hopen. cbn. rewrite Hraw. cbn. rewrite Hroi, Hguard.
  reflexivity.
Qed.

Lemma cleanup_unchanged template roi st :
  unchanged_template template roi st (cleanup st).2.
Proof.
  unfold cleanup. apply bind_unchanged.
  - eapply logged_unchanged; [reflexivity | reflexivity | exact I].
  - intros _ _.
    eapply logged_unchanged; [reflexivity | reflexivity | exact I].
Qed.

(** C8: in every run of [main], however long and however it ends, the
    buffer the template was cut from still holds the mirrored sample
    frame, so the view shows the same pixels, of the same dimensions, as
    when it was taken; every call of the matcher in the log was given
    exactly these pixels as its template, and every box drawn has the
    width and height of the ROI as selected. *)
Theorem template_and_roi_never_modified
    (fuel : nat) (raw : Image) (x y rw rh : Z) :
  camera_opens w = true ->
  camera_frame w 0 = Some raw ->
  user_roi w (flip raw 1) = (x, y, rw, rh) ->
  let template := mkView 0%nat (y, y + rh) (x, x + rw) in
  let T := map (py_slice x (x + rw)) (py_slice y (y + rh) (flip raw 1)) in
  let st' := (main w fuel initial_state).2 in
  heap st' !! 0%nat = Some (flip raw 1)
  /\ view_pixels st' template = T
  /\ Forall (uses_template T (x, y, rw, rh)) (log st').
Proof.
  intros Hopen Hraw Hroi template T st'.
  assert (heap st' !! 0%nat = Some (flip raw 1)
          /\ Forall (uses_template T (x, y, rw, rh)) (log st')) as [Hbuf Hlog].
  { subst st' template. destruct ((rw =? 0) || (rh =? 0)) eqn:Hguard.
    - rewrite (main_refuses_roi w fuel raw x y rw rh Hopen Hraw Hroi Hguard).
      split; [reflexivity|]. simpl. repeat constructor.
    - rewrite (main_enters_loop fuel raw x y rw rh Hopen Hraw Hroi Hguard).
      assert (unchanged_template (mkView 0%nat (y, y + rh) (x, x + rw))
                (x, y, rw, rh) (tracking_state w raw x y rw rh)
                ((tracking_loop w fuel (x, y, rw, rh)
                    (mkView 0%nat (y, y + rh) (x, x + rw)) None ;;; cleanup)
                   (tracking_state w raw x y rw rh)).2)
        as (_ & Hheap & evs & Hevs & Hall).
      { apply bind_unchanged.
        - apply tracking_loop_unchanged_template. simpl. lia.
        - intros _ _. apply cleanup_unchanged. }
      split; [exact Hheap|].
      rewrite Hevs. apply Forall_app. split; [simpl; repeat constructor|].
      exact Hall. }
  split; [exact Hbuf|]. split; [|exact Hlog].
  unfold view_pixels, view_of, T. rewrite list_lookup_total_alt.
  change (heap st' !! base template) with (heap st' !! 0%nat).
  rewrite Hbuf. reflexivity.
Qed.
End TemplateRun.

(** ** Normal returns *)

Section Returns.
Context `{CvLib} (w : World).

Lemma main_without_camera (fuel : nat) :
  camera_opens w = false ->
  main w fuel initial_state
  = (Ok tt,
     mkState [] CamClosed [] 0 0
       [EvVideoCapture 0; EvPrint "Error: Could not open camera"]).
Proof.
  intros Hopen.
  unfold main, bind, VideoCapture, isOpened, print, emit, initial_state.
  cbn. rewrite Hopen. reflexivity.
Qed.

Lemma main_without_sample (fuel : nat) :
  camera_opens w = true ->
  camera_frame w 0 = None ->
  main w fuel initial_state
  = (Raise (mkExn Exception "Failed to read frame from camera"),
     mkState [] CamOpen [] 1 0 [EvVideoCapture 0; EvRead false]).
Proof.
  intros Hopen Hraw.
  unfold main, bind, VideoCapture, isOpened, get_frame, bind, read,
    next_frame, raise, initial_state.
  cbn. rewrite Hopen. cbn. rewrite Hraw. reflexivity.
Qed.

(** X1: whenever [main] returns, rather than being left by an exception, the
    camera is released and no window is open. *)
Theorem main_return_frees_camera_and_windows (fuel : nat) (st' : State) :
  main w fuel initial_state = (Ok tt, st') ->
  camera st' = CamClosed /\ windows st' = [].
Proof.
  destruct (camera_opens w) eqn:Hopen.
  - destruct (camera_frame w 0) as [raw|] eqn:Hraw.
    + destruct (user_roi w (flip raw 1)) as [[[x y] rw] rh] eqn:Hroi.
      destruct ((rw =? 0) || (rh =? 0)) eqn:Hguard.
      * rewrite (main_refuses_roi w fuel raw x y rw rh Hopen Hraw Hroi Hguard).
        intros [= <-]. split; reflexivity.
      * rewrite (main_enters_loop w fuel raw x y rw rh Hopen Hraw Hroi Hguard).
        unfold bind.
        destruct (tracking_loop _ _ _ _ _ _) as [[[]|e|] st1];
          [|discriminate|discriminate].
        unfold cleanup, bind, release, destroyAllWindows. cbn.
        intros [= <-]. split; reflexivity.
    + rewrite (main_without_sample fuel Hopen Hraw). discriminate.
  - rewrite (main_without_camera fuel Hopen).
    intros [= <-]. split; reflexivity.
Qed.

End Returns.

(** ** The pixels of the template *)

Section Slicing.
Context {A : Type}.

(** On non-negative bounds a slice stops at the end of the sequence. *)
Lemma py_slice_nonneg (a b : Z) (l : list A) :
  0 <= a -> a <= b ->
  py_slice a b l
  = take (Z.to_nat (Z.min b (Z.of_nat (length l))
                    - Z.min a (Z.of_nat (length l))))
         (drop (Z.to_nat (Z.min a (Z.of_nat (length l)))) l).
Proof.
  intros Ha Hab. unfold py_slice, py_index.
  destruct (Z.ltb_spec a 0); [lia|].
  destruct (Z.ltb_spec b 0); [lia|]. reflexivity.
Qed.

Lemma py_slice_length (a b : Z) (l : list A) :
  0 <= a -> a <= b ->
  length (py_slice a b l)
  = Z.to_nat (Z.min b (Z.of_nat (length l))
              - Z.min a (Z.of_nat (length l))).
Proof.
  intros Ha Hab. rewrite (py_slice_nonneg a b l Ha Hab).
  rewrite length_take, length_drop. lia.
Qed.

Lemma py_slice_lookup (a b : Z) (l : list A) (i : nat) :
  0 <= a -> a <= b -> b <= Z.of_nat (length l) ->
  (Z.of_nat i < b - a) ->
  py_slice a b l !! i = l !! (Z.to_nat a + i)%nat.
Proof.
  intros Ha Hab Hb Hi. rewrite (py_slice_nonneg a b l Ha Hab).
  rewrite !Z.min_l by lia.
  rewrite lookup_take_lt by lia. apply lookup_drop.
Qed.
End Slicing.

Lemma lookup_map {A B : Type} (f : A -> B) (l : list A) (i : nat) :
  map f l !! i = f <$> l !! i.
Proof.
  revert i. induction l as [|a l IH]; intros [|i]; cbn; auto.
Qed.

Section TemplatePixels.
Context `{CvLib}.

(** X3: for a ROI with non-negative corner and size, [get_template]
    returns a view, copies nothing, and the view is the ROI clipped to
    the frame: of a frame of [rows] rows of [cols] pixels it shows the
    rows from [y] to [y + rh] and the columns from [x] to [x + rw] that
    exist.  Within the frame that is [rh] rows of [rw] pixels. *)
Theorem get_template_shape
    (st : State) (frame : ndarray) (img : Image) (cols : nat)
    (x y rw rh : Z) :
  heap st !! frame = Some img ->
  Forall (fun row => length row = cols) img ->
  0 <= x -> 0 <= y -> 0 <= rw -> 0 <= rh ->
  exists v st',
    get_template (x, y, rw, rh) frame st = (Ok v, st')
    /\ heap st' = heap st
    /\ length (view_pixels st' v)
       = Z.to_nat (Z.min (y + rh) (Z.of_nat (length img))
                   - Z.min y (Z.of_nat (length img)))
    /\ Forall (fun row =>
                 length row
                 = Z.to_nat (Z.min (x + rw) (Z.of_nat cols)
                             - Z.min x (Z.of_nat cols)))
         (view_pixels st' v).
Proof.
  intros Himg Hrect Hx Hy Hrw Hrh.
  eexists _, _. split; [reflexivity|]. split; [reflexivity|].
  unfold view_pixels, view_of. cbn [heap base ys xs fst snd].
  rewrite (list_lookup_total_correct _ _ _ Himg).
  split.
  - rewrite length_map. apply py_slice_length; lia.
  - apply Forall_map.
    assert (Forall (fun row : list Pixel => length row = cols)
              (py_slice y (y + rh) img)) as Hsub.
    { rewrite (py_slice_nonneg y (y + rh) img) by lia.
      apply Forall_take, Forall_drop, Hrect. }
    eapply Forall_impl; [exact Hsub|].
    intros row Hrow. cbn. rewrite py_slice_length by lia.
    rewrite Hrow. reflexivity.
Qed.

(** X4: for a ROI that lies within the frame, the pixel in row [i] and
    column [j] of the template is the pixel in row [y + i] and column
    [x + j] of the frame it was cut from. *)
Theorem get_template_pixels
    (st : State) (frame : ndarray) (img : Image) (cols : nat)
    (x y rw rh : Z) (i j : nat) :
  heap st !! frame = Some img ->
  Forall (fun row => length row = cols) img ->
  0 <= x -> 0 <= y ->
  x + rw <= Z.of_nat cols -> y + rh <= Z.of_nat (length img) ->
  Z.of_nat i < rh -> Z.of_nat j < rw ->
  exists v st',
    get_template (x, y, rw, rh) frame st = (Ok v, st')
    /\ view_pixels st' v !! i ≫= (fun row => row !! j)
       = img !! (Z.to_nat y + i)%nat
           ≫= (fun row => row !! (Z.to_nat x + j)%nat).
Proof.
  intros Himg Hrect Hx Hy Hxw Hyh Hi Hj.
  eexists _, _. split; [reflexivity|].
  unfold view_pixels, view_of. cbn [heap base ys xs fst snd].
  rewrite (list_lookup_total_correct _ _ _ Himg).
  unfold Image in *. rewrite lookup_map.
  rewrite (py_slice_lookup y (y + rh) img i) by lia.
  destruct (img !! (Z.to_nat y + i)%nat) as [row|] eqn:Hrow; [|reflexivity].
  cbn.
  assert (length row = cols) as Hlen.
  { rewrite Forall_forall in Hrect. apply Hrect.
    apply list_elem_of_lookup. eauto. }
  apply py_slice_lookup; lia.
Qed.
End TemplatePixels.

(** ** A pass through the loop, end to end *)

Section Pass.
Context `{CvLib} (w : World).

Lemma lookup_total_snoc (l : list Image) (x : Image) :
  (l ++ [x]) !!! length l = x.
Proof.
  rewrite lookup_total_app_r by reflexivity.
  rewrite Nat.sub_diag. reflexivity.
Qed.

Lemma insert_snoc (l : list Image) (x y : Image) :
  <[length l := y]> (l ++ [x]) = l ++ [y].
Proof.
  rewrite insert_app_r_alt by reflexivity.
  rewrite Nat.sub_diag. reflexivity.
Qed.

Lemma view_of_snoc (l : list Image) (x : Image) (v : ndview) :
  (base v < length l)%nat -> view_of (l ++ [x]) v = view_of l v.
Proof. intros Hbase. apply view_of_lookup, lookup_app_l, Hbase. Qed.

(** The pass up to the gate, when the frame is read and matched. *)
Lemma iteration_matched roi template result st raw (R : ScoreMatrix) :
  next_frame w st = Some raw ->
  cv_matchTemplate (flip raw 1) (view_of (heap st ++ [flip raw 1]) template)
    MATCHING_METHOD = CvOk R ->
  iteration w roi template result st
  = (annotate (length (heap st)) roi (Some R) ;;;
     imshow "Camera Feed" (length (heap st)) ;;;
     key <- waitKey w 1 ;;
     if key =? ord_q then ret Break else ret (Continue (Some R)))
      (mkState (heap st ++ [flip raw 1]) (camera st) (windows st)
         (S (reads st)) (keys st)
         (log st ++
            [EvRead true;
             EvMatchTemplate (flip raw 1)
               (view_of (heap st ++ [flip raw 1]) template)
               MATCHING_METHOD])).
Proof.
  intros Hraw Hok. unfold iteration.
  pose proof (grab_frame_eq w st) as Hgrab. rewrite Hraw in Hgrab.
  rewrite (bind_ok _ _ _ _ _ Hgrab).
  erewrite bind_ok; [reflexivity|].
  unfold try_except, bind, matchTemplate, pixels, view_pixels, ret.
  cbn [heap]. rewrite lookup_total_snoc, Hok.
  cbn. rewrite <- !app_assoc. reflexivity.
Qed.

(** The gate on an assigned result always comes back, and touches
    neither the camera, nor the windows, nor the counters. *)
Lemma annotate_assigned frame roi (R : ScoreMatrix) st :
  exists st1,
    annotate frame roi (Some R) st = (Ok tt, st1)
    /\ camera st1 = camera st /\ windows st1 = windows st
    /\ reads st1 = reads st /\ keys st1 = keys st
    /\ length (heap st1) = length (heap st).
Proof.
  unfold annotate, read_local, bind, ret.
  destruct (get_result R) as [res_val [mx my]].
  destruct roi as [[[x y] rw] rh].
  destruct (MIN_THRESHOLD <=? res_val)%float.
  - unfold get_tl_and_br_coordinates, draw_rectangle, bind, rectangle,
      putText.
    eexists. split; [reflexivity|]. cbn. rewrite !length_insert.
    repeat split; reflexivity.
  - eexists. split; [reflexivity|]. repeat split; reflexivity.
Qed.

(** A pass in which the frame is read and matched reaches its end. *)
Lemma iteration_matched_ends roi template result st raw (R : ScoreMatrix) :
  next_frame w st = Some raw ->
  cv_matchTemplate (flip raw 1) (view_of (heap st ++ [flip raw 1]) template)
    MATCHING_METHOD = CvOk R ->
  exists st1,
    iteration w roi template result st
    = (Ok (if key_press w (keys st) =? ord_q then Break
           else Continue (Some R)), st1)
    /\ camera st1 = camera st
    /\ windows st1 = open_window "Camera Feed" (windows st)
    /\ reads st1 = S (reads st) /\ keys st1 = S (keys st).
Proof.
  intros Hraw Hok. rewrite (iteration_matched roi _ result _ _ _ Hraw Hok).
  match goal with
  | |- context [bind (annotate ?f ?r ?o) _ ?s] =>
      destruct (annotate_assigned f r R s)
        as (st1 & Hann & Hcam & Hwin & Hreads & Hkeys & _)
  end.
  rewrite (bind_ok _ _ _ _ _ Hann).
  unfold bind, imshow, waitKey, ret. cbn.
  rewrite Hkeys. cbn.
  destruct (key_press w (keys st) =? ord_q);
    (eexists; split; [reflexivity|]; cbn;
     rewrite ?Hcam, ?Hwin, ?Hreads, ?Hkeys; repeat split; reflexivity).
Qed.

(** X5: a pass with a weak match, end to end.  The frame is read and
    mirrored into a new array, matched against the template as it
    stands, and shown as it is: nothing is drawn, and the array holds
    the mirrored camera frame.  The pass hands on the new result, or
    breaks when [q] was pressed. *)
Theorem weak_match_pass_shows_bare_frame
    (roi : ROI) (template : ndview) (result : option ScoreMatrix)
    (st : State) (raw : Image) (R : ScoreMatrix)
    (min_val s : float) (min_loc loc : Point) :
  next_frame w st = Some raw ->
  (base template < length (heap st))%nat ->
  cv_matchTemplate (flip raw 1) (view_of (heap st) template) MATCHING_METHOD
  = CvOk R ->
  cv_minMaxLoc R = (min_val, s, min_loc, loc) ->
  (s <? MIN_THRESHOLD)%float = true ->
  iteration w roi template result st
  = (Ok (if key_press w (keys st) =? ord_q then Break
         else Continue (Some R)),
     mkState (heap st ++ [flip raw 1]) (camera st)
       (open_window "Camera Feed" (windows st))
       (S (reads st)) (S (keys st))
       (log st ++
          [EvRead true;
           EvMatchTemplate (flip raw 1) (view_of (heap st) template)
             MATCHING_METHOD;
           EvImshow "Camera Feed" (flip raw 1);
           EvWaitKey 1 (key_press w (keys st))])).
Proof.
  intros Hraw Hbase Hok Hmm Hlt.
  rewrite <- (view_of_snoc (heap st) (flip raw 1) template Hbase) in Hok.
  rewrite (iteration_matched roi _ result _ _ _ Hraw Hok).
  rewrite (view_of_snoc (heap st) (flip raw 1) template Hbase).
  unfold annotate, read_local, bind, ret.
  rewrite (get_result_below _ _ _ _ _ Hmm Hlt).
  unfold imshow, waitKey, pixels. cbn.
  rewrite lookup_total_snoc, <- !app_assoc. cbn.
  destruct (key_press w (keys st) =? ord_q); reflexivity.
Qed.

(** X6: a pass with a strong match, end to end.  The box is drawn at the
    match location with the size of the ROI, the label ten pixels above
    it, both into the new array and into no other; what is shown is the
    frame with box and label. *)
Theorem strong_match_pass_shows_boxed_frame
    (template : ndview) (result : option ScoreMatrix)
    (st : State) (raw : Image) (R : ScoreMatrix)
    (min_val s : float) (min_loc : Point) (mx my x y rw rh : Z) :
  next_frame w st = Some raw ->
  (base template < length (heap st))%nat ->
  cv_matchTemplate (flip raw 1) (view_of (heap st) template) MATCHING_METHOD
  = CvOk R ->
  cv_minMaxLoc R = (min_val, s, min_loc, (mx, my)) ->
  (MIN_THRESHOLD <=? s)%float = true ->
  let boxed :=
    cv_putText
      (cv_rectangle (flip raw 1) (mx, my) (mx + rw, my + rh) (0, 255, 0) 2)
      ("Match: " +:+ format_2f s) (mx, my - 10)
      FONT_HERSHEY_SIMPLEX FONT_SIZE FONT_COLOR FONT_THICKNESS in
  iteration w (x, y, rw, rh) template result st
  = (Ok (if key_press w (keys st) =? ord_q then Break
         else Continue (Some R)),
     mkState (heap st ++ [boxed]) (camera st)
       (open_window "Camera Feed" (windows st))
       (S (reads st)) (S (keys st))
       (log st ++
          [EvRead true;
           EvMatchTemplate (flip raw 1) (view_of (heap st) template)
             MATCHING_METHOD;
           EvRectangle (length (heap st)) (mx, my) (mx + rw, my + rh)
             (0, 255, 0) 2;
           EvPutText (length (heap st)) ("Match: " +:+ format_2f s)
             (mx, my - 10) FONT_HERSHEY_SIMPLEX FONT_SIZE FONT_COLOR
             FONT_THICKNESS;
           EvImshow "Camera Feed" boxed;
           EvWaitKey 1 (key_press w (keys st))])).
Proof.
  intros Hraw Hbase Hok Hmm Hle boxed. subst boxed.
  rewrite <- (view_of_snoc (heap st) (flip raw 1) template Hbase) in Hok.
  rewrite (iteration_matched (x, y, rw, rh) _ result _ _ _ Hraw Hok).
  rewrite (view_of_snoc (heap st) (flip raw 1) template Hbase).
  unfold annotate, read_local, bind, ret.
  rewrite (get_result_above _ _ _ _ _ Hmm Hle), Hle.
  unfold get_tl_and_br_coordinates, draw_rectangle, bind, rectangle,
    putText, imshow, waitKey, pixels.
  cbn. repeat (rewrite ?lookup_total_snoc; rewrite insert_snoc).
  rewrite ?lookup_total_snoc, <- !app_assoc. cbn.
  destruct (key_press w (keys st) =? ord_q); reflexivity.
Qed.

(** X7: when [q] is pressed in a pass whose frame is read and matched,
    that pass is the last: the loop is left, the camera is released and
    the windows are closed, after exactly one more read and one more
    key poll. *)
Theorem q_ends_the_run
    (fuel : nat) (roi : ROI) (template : ndview)
    (result : option ScoreMatrix) (st : State) (raw : Image)
    (R : ScoreMatrix) :
  next_frame w st = Some raw ->
  cv_matchTemplate (flip raw 1) (view_of (heap st ++ [flip raw 1]) template)
    MATCHING_METHOD = CvOk R ->
  key_press w (keys st) = ord_q ->
  exists st',
    (tracking_loop w (S fuel) roi template result ;;; cleanup) st
    = (Ok tt, st')
    /\ camera st' = CamClosed /\ windows st' = []
    /\ reads st' = S (reads st) /\ keys st' = S (keys st).
Proof.
  intros Hraw Hok Hq.
  destruct (iteration_matched_ends roi template result st raw R Hraw Hok)
    as (st1 & Hit & _ & _ & Hreads & Hkeys).
  rewrite Hq in Hit. cbn in Hit.
  cbn [tracking_loop]. unfold bind at 1. unfold bind at 1.
  rewrite Hit. unfold cleanup, bind, release, destroyAllWindows, ret. cbn.
  eexists. split; [reflexivity|]. cbn. auto.
Qed.

(** The pass up to the gate, when the matcher raises and an earlier
    pass has assigned [result]. *)
Lemma iteration_unmatched roi template (earlier : ScoreMatrix) st raw msg :
  next_frame w st = Some raw ->
  cv_matchTemplate (flip raw 1) (view_of (heap st ++ [flip raw 1]) template)
    MATCHING_METHOD = CvFail msg ->
  iteration w roi template (Some earlier) st
  = (annotate (length (heap st)) roi (Some earlier) ;;;
     imshow "Camera Feed" (length (heap st)) ;;;
     key <- waitKey w 1 ;;
     if key =? ord_q then ret Break else ret (Continue (Some earlier)))
      (mkState (heap st ++ [flip raw 1]) (camera st) (windows st)
         (S (reads st)) (keys st)
         (log st ++
            [EvRead true;
             EvMatchTemplate (flip raw 1)
               (view_of (heap st ++ [flip raw 1]) template) MATCHING_METHOD;
             EvPrint ("Processing error: " +:+ msg)])).
Proof.
  intros Hraw Hfail. unfold iteration.
  pose proof (grab_frame_eq w st) as Hgrab. rewrite Hraw in Hgrab.
  rewrite (bind_ok _ _ _ _ _ Hgrab).
  erewrite bind_ok; [reflexivity|].
  unfold try_except, bind, matchTemplate, pixels, view_pixels, print, emit,
    ret.
  cbn [heap]. rewrite lookup_total_snoc, Hfail.
  cbn. rewrite <- !app_assoc. reflexivity.
Qed.

(** X2: when the matcher raises in a pass that an earlier pass has left a
    result for, the error is printed and the pass goes on with that
    earlier result.  It is thresholded again: when its best score is at
    least 0.8, its box and label are drawn into the new frame, at the
    location of the earlier match, and otherwise nothing is drawn.  The
    new frame, with or without that box, is shown, and the pass hands on
    the earlier result, or breaks when [q] was pressed. *)
Theorem matcher_failure_reuses_earlier_result
    (template : ndview) (earlier : ScoreMatrix) (st : State)
    (raw : Image) (msg : string)
    (min_val s : float) (min_loc : Point) (mx my x y rw rh : Z) :
  next_frame w st = Some raw ->
  cv_matchTemplate (flip raw 1) (view_of (heap st ++ [flip raw 1]) template)
    MATCHING_METHOD = CvFail msg ->
  cv_minMaxLoc earlier = (min_val, s, min_loc, (mx, my)) ->
  let drawn := (MIN_THRESHOLD <=? s)%float in
  let boxed :=
    cv_putText
      (cv_rectangle (flip raw 1) (mx, my) (mx + rw, my + rh) (0, 255, 0) 2)
      ("Match: " +:+ format_2f s) (mx, my - 10)
      FONT_HERSHEY_SIMPLEX FONT_SIZE FONT_COLOR FONT_THICKNESS in
  let shown := if drawn then boxed else flip raw 1 in
  iteration w (x, y, rw, rh) template (Some earlier) st
  = (Ok (if key_press w (keys st) =? ord_q then Break
         else Continue (Some earlier)),
     mkState (heap st ++ [shown]) (camera st)
       (open_window "Camera Feed" (windows st))
       (S (reads st)) (S (keys st))
       (log st ++
          [EvRead true;
           EvMatchTemplate (flip raw 1)
             (view_of (heap st ++ [flip raw 1]) template) MATCHING_METHOD;
           EvPrint ("Processing error: " +:+ msg)]
          ++ (if drawn
              then [EvRectangle (length (heap st)) (mx, my)
                      (mx + rw, my + rh) (0, 255, 0) 2;
                    EvPutText (length (heap st))
                      ("Match: " +:+ format_2f s) (mx, my - 10)
                      FONT_HERSHEY_SIMPLEX FONT_SIZE FONT_COLOR
                      FONT_THICKNESS]
              else [])
          ++ [EvImshow "Camera Feed" shown;
              EvWaitKey 1 (key_press w (keys st))])).
Proof.
  intros Hraw Hfail Hmm drawn boxed shown. subst shown boxed drawn.
  rewrite (iteration_unmatched (x, y, rw, rh) _ _ _ _ _ Hraw Hfail).
  unfold annotate, read_local, bind, ret.
  assert (get_result earlier
          = if (s <? MIN_THRESHOLD)%float then (0%float, (0, 0))
            else (s, (mx, my))) as Hres.
  { unfold get_result. rewrite Hmm. reflexivity. }
  rewrite Hres.
  destruct (s <? MIN_THRESHOLD)%float eqn:Hlt.
  - rewrite (ltb_not_leb _ _ Hlt).
    unfold imshow, waitKey, pixels. cbn.
    rewrite lookup_total_snoc, <- !app_assoc. cbn.
    destruct (key_press w (keys st) =? ord_q); reflexivity.
  - destruct (MIN_THRESHOLD <=? s)%float eqn:Hle.
    + unfold get_tl_and_br_coordinates, draw_rectangle, bind, rectangle,
        putText, imshow, waitKey, pixels.
      cbn. repeat (rewrite ?lookup_total_snoc; rewrite insert_snoc).
      rewrite ?lookup_total_snoc, <- !app_assoc. cbn.
      destruct (key_press w (keys st) =? ord_q); reflexivity.
    + unfold imshow, waitKey, pixels. cbn.
      rewrite lookup_total_snoc, <- !app_assoc. cbn.
      destruct (key_press w (keys st) =? ord_q); reflexivity.
Qed.

(** X14: when the matcher raises in a pass before which no result was
    ever assigned, the error is printed and the pass then fails on
    reading [result]: an [UnboundLocalError] leaves the loop and skips
    the cleanup.  The frame of that pass is not shown and the camera is
    not released. *)
Theorem unassigned_result_ends_run_without_cleanup
    (fuel : nat) (roi : ROI) (template : ndview) (st : State)
    (raw : Image) (msg : string) :
  next_frame w st = Some raw ->
  cv_matchTemplate (flip raw 1) (view_of (heap st ++ [flip raw 1]) template)
    MATCHING_METHOD = CvFail msg ->
  (tracking_loop w (S fuel) roi template None ;;; cleanup) st
  = (Raise
       (mkExn UnboundLocalError
          "cannot access local variable 'result' where it is not associated with a value"),
     mkState (heap st ++ [flip raw 1]) (camera st) (windows st)
       (S (reads st)) (keys st)
       (log st ++
          [EvRead true;
           EvMatchTemplate (flip raw 1)
             (view_of (heap st ++ [flip raw 1]) template) MATCHING_METHOD;
           EvPrint ("Processing error: " +:+ msg)])).
Proof.
  intros Hraw Hfail. cbn [tracking_loop]. unfold iteration.
  pose proof (grab_frame_eq w st) as Hgrab. rewrite Hraw in Hgrab.
  unfold bind at 1. unfold bind at 1. unfold bind at 1.
  rewrite Hgrab.
  unfold try_except, bind, matchTemplate, pixels, view_pixels, print, emit,
    ret.
  cbn [heap]. rewrite lookup_total_snoc, Hfail.
  cbn. rewrite <- !app_assoc. reflexivity.
Qed.
End Pass.

(** ** How a run ends *)

Section Ending.
Context `{CvLib} (w : World).

(** The loop from a state [d] reads before the failing read [k]. *)
Lemma tracking_loop_ends (roi : ROI) (template : ndview) (T : Image)
    (k : nat) :
  (forall n raw', camera_frame w n = Some raw' ->
     exists R, cv_matchTemplate (flip raw' 1) T MATCHING_METHOD = CvOk R) ->
  camera_frame w k = None ->
  forall d fuel st result,
    camera st = CamOpen ->
    (base template < length (heap st))%nat ->
    view_of (heap st) template = T ->
    (reads st + d = k)%nat ->
    (d < fuel)%nat ->
    exists st',
      tracking_loop w fuel roi template result st = (Ok tt, st')
      /\ (reads st' <= S k)%nat.
Proof.
  intros Hmatch Hstop.
  induction d as [|d IH]; intros [|fuel] st result Hcam Hbase HT Hd Hfuel;
    try lia.
  - (* the read of this pass is the failing one *)
    assert (next_frame w st = None) as Hnone.
    { unfold next_frame. rewrite Hcam.
      replace (reads st) with k by lia. exact Hstop. }
    pose proof (grab_frame_eq w st) as Hgrab. rewrite Hnone in Hgrab.
    cbn [tracking_loop]. unfold iteration.
    unfold bind at 1. rewrite (bind_ok _ _ _ _ _ Hgrab).
    eexists. split; [reflexivity|]. cbn. lia.
  - destruct (next_frame w st) as [raw|] eqn:Hraw.
    + assert (camera_frame w (reads st) = Some raw) as Hframe.
      { unfold next_frame in Hraw. rewrite Hcam in Hraw. exact Hraw. }
      destruct (Hmatch _ _ Hframe) as [R HR].
      rewrite <- HT in HR.
      rewrite <- (view_of_snoc (heap st) (flip raw 1) template Hbase) in HR.
      destruct (iteration_matched_ends w roi template result st raw R
                  Hraw HR) as (st1 & Hit & Hcam1 & _ & Hreads1 & _).
      pose proof (iteration_unchanged_template w roi template result st
                    Hbase) as (Hlen & Hbuf & _).
      rewrite Hit in Hlen, Hbuf. cbn [snd] in Hlen, Hbuf.
      cbn [tracking_loop]. unfold bind at 1. rewrite Hit.
      destruct (key_press w (keys st) =? ord_q).
      * eexists. split; [reflexivity|]. lia.
      * apply IH; try lia.
        -- congruence.
        -- rewrite (view_of_lookup _ _ _ Hbuf). exact HT.
    + pose proof (grab_frame_eq w st) as Hgrab. rewrite Hraw in Hgrab.
      cbn [tracking_loop]. unfold iteration.
      unfold bind at 1. rewrite (bind_ok _ _ _ _ _ Hgrab).
      eexists. split; [reflexivity|]. cbn. lia.
Qed.

(** X8: the run comes to an end.  When the ROI is valid, the matcher
    accepts every frame the camera delivers, and the camera delivers
    nothing at its read number [k], [main] returns after at most [k]
    passes, whatever keys are pressed: fuel [k] is enough, the camera is
    released, the windows are closed, and no read follows the failed
    one. *)
Theorem main_returns_when_camera_stops
    (fuel k : nat) (raw : Image) (x y rw rh : Z) :
  camera_opens w = true ->
  camera_frame w 0 = Some raw ->
  user_roi w (flip raw 1) = (x, y, rw, rh) ->
  rw <> 0 -> rh <> 0 ->
  (forall n raw', camera_frame w n = Some raw' ->
     exists R,
       cv_matchTemplate (flip raw' 1)
         (map (py_slice x (x + rw)) (py_slice y (y + rh) (flip raw 1)))
         MATCHING_METHOD = CvOk R) ->
  camera_frame w k = None ->
  (k <= fuel)%nat ->
  exists st',
    main w fuel initial_state = (Ok tt, st')
    /\ camera st' = CamClosed /\ windows st' = []
    /\ (reads st' <= S k)%nat.
Proof.
  intros Hopen Hraw Hroi Hrw Hrh Hmatch Hstop Hfuel.
  assert ((rw =? 0) || (rh =? 0) = false) as Hguard.
  { apply orb_false_intro; apply Z.eqb_neq; assumption. }
  assert (1 <= k)%nat as Hk.
  { destruct k; [congruence | lia]. }
  rewrite (main_enters_loop w fuel raw x y rw rh Hopen Hraw Hroi Hguard).
  destruct (tracking_loop_ends (x, y, rw, rh)
              (mkView 0%nat (y, y + rh) (x, x + rw)) _ k Hmatch Hstop
              (k - 1)%nat fuel (tracking_state w raw x y rw rh) None)
    as (st1 & Hloop & Hreads); try reflexivity; cbn; try lia.
  rewrite (bind_ok _ _ _ _ _ Hloop).
  unfold cleanup, bind, release, destroyAllWindows.
  eexists. split; [reflexivity|]. cbn. auto.
Qed.

(** X9: without a camera there is no run: [main] prints that the camera
    could not be opened and returns.  It reads no frame, opens no
    window, asks for no ROI. *)
Theorem main_returns_without_camera (fuel : nat) :
  camera_opens w = false ->
  main w fuel initial_state
  = (Ok tt,
     mkState [] CamClosed [] 0 0
       [EvVideoCapture 0; EvPrint "Error: Could not open camera"]).
Proof.
  intros Hopen.
  unfold main, bind, VideoCapture, isOpened, print, emit, initial_state.
  cbn. rewrite Hopen. reflexivity.
Qed.

(** X10: a camera that opens and fails its first read is not handled:
    the exception of [get_frame] leaves [main], before any ROI is asked
    for and before the loop, and the camera is still held. *)
Theorem main_raises_without_sample (fuel : nat) :
  camera_opens w = true ->
  camera_frame w 0 = None ->
  main w fuel initial_state
  = (Raise (mkExn Exception "Failed to read frame from camera"),
     mkState [] CamOpen [] 1 0 [EvVideoCapture 0; EvRead false]).
Proof.
  intros Hopen Hraw.
  unfold main, bind, VideoCapture, isOpened, get_frame, bind, read,
    next_frame, raise, initial_state.
  cbn. rewrite Hopen. cbn. rewrite Hraw. reflexivity.
Qed.
End Ending.

(** ** The gate, including scores that are not numbers *)

Lemma SFeqb_refl_false (x : spec_float) :
  SFeqb x x = false -> x = S754_nan.
Proof.
  unfold SFeqb. destruct x as [s|s| |s m e]; cbn; try discriminate;
    try reflexivity.
  - destruct s; discriminate.
  - rewrite Z.compare_refl.
    change (PosDef.Pos.compare_cont Eq m m) with (Pos.compare m m).
    rewrite Pos.compare_refl. destruct s; discriminate.
Qed.

Lemma is_nan_Prim2SF (s : float) :
  PrimFloat.is_nan s = true -> Prim2SF s = S754_nan.
Proof.
  unfold PrimFloat.is_nan. rewrite FloatAxioms.eqb_spec. intros Hnan.
  apply SFeqb_refl_false. destruct (SFeqb _ _); [discriminate|reflexivity].
Qed.

Lemma is_nan_compares_false (s t : float) :
  PrimFloat.is_nan s = true ->
  (s <? t)%float = false /\ (t <=? s)%float = false.
Proof.
  intros Hnan. rewrite ltb_spec, leb_spec, (is_nan_Prim2SF s Hnan).
  split; [reflexivity|].
  unfold SFleb. destruct (Prim2SF t); reflexivity.
Qed.

Section GateAgain.
Context `{CvLib}.

(** X11: the two tests of the threshold agree.  What [get_result]
    returns passes the gate of [main] exactly when the best score of the
    matrix is at least the threshold, so a box is drawn for a score at
    or above 0.8 and for no other. *)
Theorem gate_follows_best_score (result : ScoreMatrix) :
  (MIN_THRESHOLD <=? (get_result result).1)%float
  = (MIN_THRESHOLD <=? (cv_minMaxLoc result).1.1.2)%float.
Proof.
  unfold get_result.
  destruct (cv_minMaxLoc result) as [[[min_val s] min_loc] loc].
  cbn [fst snd].
  destruct (s <? MIN_THRESHOLD)%float eqn:Hlt; cbn [fst snd]; [|reflexivity].
  rewrite (ltb_not_leb _ _ Hlt). reflexivity.
Qed.

(** X12: a best score that is not a number is not forced to the
    sentinel: [get_result] returns it with its location.  It fails the
    gate all the same, so nothing is drawn. *)
Theorem nan_score_kept_and_not_drawn
    (result : ScoreMatrix) (min_val s : float) (min_loc loc : Point)
    (frame : ndarray) (roi : ROI) (st : State) :
  cv_minMaxLoc result = (min_val, s, min_loc, loc) ->
  PrimFloat.is_nan s = true ->
  get_result result = (s, loc)
  /\ annotate frame roi (Some result) st = (Ok tt, st).
Proof.
  intros Hmm Hnan.
  destruct (is_nan_compares_false s MIN_THRESHOLD Hnan) as [Hlt Hle].
  assert (get_result result = (s, loc)) as Hres.
  { unfold get_result. rewrite Hmm, Hlt. reflexivity. }
  split; [exact Hres|].
  unfold annotate, read_local, bind, ret. rewrite Hres, Hle. reflexivity.
Qed.
End GateAgain.

(** ** The face annotator, when the frame is captured *)

Section Faces.
Context `{CvLib} (w : World).

Lemma for_each_rectangles (img : ndarray) (faces : list ROI) :
  forall st,
    (img < length (heap st))%nat ->
    for_each faces
      (fun '(x_coord, y_coord, width, height) =>
         rectangle img (x_coord, y_coord)
           (int32_add x_coord width, int32_add y_coord height)
           ObjectDetection.BORDER_COLOR ObjectDetection.BORDER_THICKNESS) st
    = (Ok tt,
       mkState (<[img := draw_boxes faces (heap st !!! img)]> (heap st))
         (camera st) (windows st) (reads st) (keys st)
         (log st ++ boxes_of img faces)).
Proof.
  induction faces as [|[[[x y] fw] fh] faces IH]; intros st Himg.
  - cbn. unfold ret. rewrite app_nil_r.
    rewrite list_insert_id; [destruct st; reflexivity|].
    apply list_lookup_lookup_total_lt. exact Himg.
  - cbn [for_each]. unfold bind at 1. unfold rectangle at 1.
    rewrite IH by (cbn; rewrite length_insert; exact Himg).
    cbn [heap camera windows reads keys log]. unfold pixels.
    rewrite list_lookup_total_insert_eq by exact Himg.
    rewrite list_insert_insert_eq, <- app_assoc. reflexivity.
Qed.

(** Within 32 bits the sum of a corner and a size is the plain sum. *)
Lemma int32_add_exact (a b : Z) :
  - 2 ^ 31 <= a + b < 2 ^ 31 -> int32_add a b = a + b.
Proof.
  intros Hrange. unfold int32_add.
  rewrite Z.mod_small by lia. lia.
Qed.

(** X13: when the frame is captured, the conversion to grey accepts the
    mirrored frame and the classifier returns its detections, the face
    annotator draws one box per detection, in the order of detection,
    from [(x, y)] to the 32-bit sums [(x + width, y + height)], into the
    mirrored frame; it shows that frame once, waits for one key,
    releases the camera and closes the windows.  With no detection the
    frame is shown untouched. *)
Theorem faces_boxed_and_shown_once
    (raw gray : Image) (faces : list ROI) :
  camera_opens w = true ->
  camera_frame w 0 = Some raw ->
  cv_cvtColor (flip raw 1) COLOR_BGR2GRAY = CvOk gray ->
  cv_detectMultiScale gray 1.1%float 5 = CvOk faces ->
  let mirrored := flip raw 1 in
  ObjectDetection.script w initial_state
  = (Ok tt,
     mkState [draw_boxes faces mirrored; gray] CamClosed [] 1 1
       ([EvInput "Look at the camera. Press Enter to start face detection...";
         EvCascadeClassifier
           (cv_data_haarcascades +:+ ObjectDetection.HAARCASCADE_MODEL);
         EvVideoCapture 0; EvRead true;
         EvCvtColor mirrored COLOR_BGR2GRAY;
         EvDetectMultiScale gray 1.1%float 5]
        ++ boxes_of 0%nat faces
        ++ [EvImshow "Face Detection" (draw_boxes faces mirrored);
            EvWaitKey 0 (key_press w 0); EvRelease; EvDestroyAllWindows])).
Proof.
  intros Hopen Hraw Hgray Hfaces mirrored. subst mirrored.
  unfold ObjectDetection.script, bind, input, emit, VideoCapture, read,
    next_frame, cv2_flip, cvtColor, alloc, detectMultiScale, pixels,
    initial_state.
  cbn. rewrite Hopen. cbn. rewrite Hraw. cbn.
  rewrite Hgray. cbn. rewrite Hfaces.
  rewrite for_each_rectangles by (cbn; lia).
  cbn. unfold imshow, waitKey, release, destroyAllWindows, pixels. cbn.
  rewrite <- !app_assoc. reflexivity.
Qed.
End Faces.

(** ** Runs of the test double *)

#[local] Existing Instance Mock.lib.

Lemma invalid_roi_aborts_on_empty_selection :
  user_roi Mock.empty_selection (flip Mock.big_frame 1) = (1, 1, 0, 2)
  /\ @main Mock.lib Mock.empty_selection 3 initial_state
     = (Ok tt,
        mkState [flip Mock.big_frame 1] CamClosed [] 1 1
          [EvVideoCapture 0; EvRead true;
           EvSelectROI "Select ROI" (flip Mock.big_frame 1);
           EvDestroyWindow "Select ROI";
           EvWaitKey 1 (key_press Mock.empty_selection 0);
           EvPrint "Error: Invalid ROI selection"; EvRelease]).
Proof.
  split; [reflexivity|].
  apply (@invalid_roi_aborts Mock.lib Mock.empty_selection 3 Mock.big_frame
           1 1 0 2);
    [reflexivity | reflexivity | reflexivity | left; reflexivity].
Defined.

Lemma read_failure_breaks_and_cleans_up_when_device_stops :
  let st := @mkState Mock.lib [flip Mock.big_frame 1] CamOpen ["Camera Feed"]
              3 3 [] in
  next_frame Mock.steady st = None
  /\ (tracking_loop Mock.steady 1 (0, 0, 2, 2)
        (mkView 0%nat (0, 2) (0, 2)) None ;;; cleanup) st
     = (Ok tt,
        mkState (heap st) CamClosed [] (S (reads st)) (keys st)
          (log st ++
             [EvRead false;
              EvPrint "Camera error: Failed to read frame from camera";
              EvRelease; EvDestroyAllWindows])).
Proof.
  split; [reflexivity|].
  apply (@read_failure_breaks_and_cleans_up Mock.lib Mock.steady 0
           (0, 0, 2, 2) (mkView 0%nat (0, 2) (0, 2)) None). reflexivity.
Defined.

Lemma capture_failure_exits_immediately_when_unplugged :
  exists st',
    @ObjectDetection.script Mock.lib Mock.unplugged initial_state
    = (Raise (mkExn SystemExit ""), st')
    /\ heap st' = []
    /\ windows st' = []
    /\ reads st' = 1%nat
    /\ log st'
       = [EvInput "Look at the camera. Press Enter to start face detection...";
          EvCascadeClassifier
            (cv_data_haarcascades +:+ ObjectDetection.HAARCASCADE_MODEL);
          EvVideoCapture 0; EvRead false;
          EvPrint "Error: Failed to grab initial frame from camera"].
Proof.
  apply (@capture_failure_exits_immediately Mock.lib Mock.unplugged).
  right. reflexivity.
Defined.

Lemma template_and_roi_never_modified_in_still_scene :
  let T := Mock.bgr [[3; 2]; [6; 5]] in
  let st' := (@main Mock.lib Mock.steady 5 initial_state).2 in
  heap st' !! 0%nat = Some (flip Mock.big_frame 1)
  /\ view_pixels st' (mkView 0%nat (0, 0 + 2) (0, 0 + 2)) = T
  /\ Forall (uses_template T (0, 0, 2, 2)) (log st').
Proof.
  apply (@template_and_roi_never_modified Mock.lib Mock.steady 5
           Mock.big_frame 0 0 2 2); reflexivity.
Defined.

(** ** Where the scripts leave the specification *)

(** C4, at the failing input: the frame that follows the sample is one
    row of three pixels, which the matcher refuses for the template of
    two rows and two columns, so it raises in the first pass.  The error
    is caught and printed, but [result] was never assigned, so reading
    it raises an [UnboundLocalError] that nothing catches.  The run ends
    there: the frame is not shown, the loop does not go on, and the
    camera is still held. *)
Theorem first_pass_matcher_failure_is_fatal (fuel : nat) :
  @main Mock.lib Mock.shrinking (S fuel) initial_state
  = (Raise
       (mkExn UnboundLocalError
          "cannot access local variable 'result' where it is not associated with a value"),
     mkState [flip Mock.big_frame 1; flip Mock.strip_frame 1] CamOpen [] 2 1
       [EvVideoCapture 0; EvRead true;
        EvSelectROI "Select ROI" (flip Mock.big_frame 1);
        EvDestroyWindow "Select ROI"; EvWaitKey 1 (-1);
        EvSlice 0%nat (0, 2) (0, 2); EvRead true;
        EvMatchTemplate (Mock.bgr [[3; 2; 1]]) (Mock.bgr [[3; 2]; [6; 5]])
          TM_CCOEFF_NORMED;
        EvPrint ("Processing error: " +:+ Mock.size_error)]).
Proof. reflexivity. Qed.

(** C5, at the failing input: the device opens and the read fails.  The
    face annotator prints the error and calls [exit()]: the run ends with
    the camera still held, and neither [release] nor [destroyAllWindows]
    is in the log. *)
Theorem capture_failure_leaves_camera_held :
  @ObjectDetection.script Mock.lib Mock.unplugged initial_state
  = (Raise (mkExn SystemExit ""),
     mkState [] CamOpen [] 1 0
       [EvInput "Look at the camera. Press Enter to start face detection...";
        EvCascadeClassifier
          "/usr/share/opencv4/haarcascades/haarcascade_frontalface_default.xml";
        EvVideoCapture 0; EvRead false;
        EvPrint "Error: Failed to grab initial frame from camera"]).
Proof. reflexivity. Qed.

(** The tracker has the same leak when its sample frame cannot be read:
    the exception of [get_frame] leaves [main] with the camera held. *)
Lemma sample_failure_leaves_camera_held (fuel : nat) :
  @main Mock.lib Mock.unplugged fuel initial_state
  = (Raise (mkExn Exception "Failed to read frame from camera"),
     mkState [] CamOpen [] 1 0 [EvVideoCapture 0; EvRead false]).
Proof. reflexivity. Qed.

Lemma main_return_frees_camera_and_windows_in_still_scene :
  let st' := (main Mock.steady 5 initial_state).2 in
  main Mock.steady 5 initial_state = (Ok tt, st')
  /\ camera st' = CamClosed /\ windows st' = [].
Proof.
  split; [vm_compute; reflexivity|].
  apply (main_return_frees_camera_and_windows Mock.steady 5).
  vm_compute. reflexivity.
Defined.

Lemma matcher_failure_reuses_earlier_result_in_second_pass :
  let earlier := (0%float, 0.95%float, (0, 0), (0, 0)) in
  let st := @mkState Mock.lib
              [flip Mock.big_frame 1; flip Mock.big_frame 1] CamOpen
              ["Camera Feed"] 2 2 [] in
  let green := Mock.BGR 0 255 0 in
  iteration Mock.shrinking_later (0, 0, 2, 2) (mkView 0%nat (0, 2) (0, 2))
    (Some earlier) st
  = (Ok (Continue (Some earlier)),
     mkState (heap st ++ [[[green; green; green]]]) CamOpen ["Camera Feed"]
       3 3
       (log st ++
          [EvRead true;
           EvMatchTemplate (Mock.bgr [[3; 2; 1]]) (Mock.bgr [[3; 2]; [6; 5]])
             MATCHING_METHOD;
           EvPrint ("Processing error: " +:+ Mock.size_error)]
          ++ [EvRectangle 2%nat (0, 0) (2, 2) (0, 255, 0) 2;
              EvPutText 2%nat "Match: 0.95" (0, -10) FONT_HERSHEY_SIMPLEX
                FONT_SIZE FONT_COLOR FONT_THICKNESS]
          ++ [EvImshow "Camera Feed" [[green; green; green]];
              EvWaitKey 1 (-1)])).
Proof.
  exact (@matcher_failure_reuses_earlier_result Mock.lib
           Mock.shrinking_later (mkView 0%nat (0, 2) (0, 2))
           (0%float, 0.95%float, (0, 0), (0, 0))
           (@mkState Mock.lib
              [@flip Mock.lib Mock.big_frame 1;
               @flip Mock.lib Mock.big_frame 1] CamOpen
              ["Camera Feed"] 2 2 [])
           Mock.strip_frame Mock.size_error
           0%float 0.95%float (0, 0) 0 0 0 0 2 2
           eq_refl eq_refl eq_refl).
Defined.

(** ** More runs of the test double *)

Lemma get_template_shape_clipped :
  let st := @mkState Mock.lib [Mock.big_frame] CamOpen [] 1 1 [] in
  exists v st',
    get_template (1, 1, 5, 5) 0%nat st = (Ok v, st')
    /\ heap st' = heap st
    /\ length (view_pixels st' v) = 2%nat
    /\ Forall (fun row => length row = 2%nat) (view_pixels st' v).
Proof.
  exact (@get_template_shape Mock.lib
           (@mkState Mock.lib [Mock.big_frame] CamOpen [] 1 1 [])
           0%nat Mock.big_frame 3%nat 1 1 5 5 eq_refl
           ltac:(repeat constructor)
           ltac:(lia) ltac:(lia) ltac:(lia) ltac:(lia)).
Defined.

Lemma get_template_pixels_inside :
  let st := @mkState Mock.lib [Mock.big_frame] CamOpen [] 1 1 [] in
  exists v st',
    get_template (1, 0, 2, 2) 0%nat st = (Ok v, st')
    /\ view_pixels st' v !! 1%nat ≫= (fun row => row !! 1%nat)
       = Mock.big_frame !! (Z.to_nat 0 + 1)%nat
           ≫= (fun row => row !! (Z.to_nat 1 + 1)%nat).
Proof.
  exact (@get_template_pixels Mock.lib
           (@mkState Mock.lib [Mock.big_frame] CamOpen [] 1 1 [])
           0%nat Mock.big_frame 3%nat 1 0 2 2 1%nat 1%nat eq_refl
           ltac:(repeat constructor)
           ltac:(lia) ltac:(lia) ltac:(cbn; lia) ltac:(cbn; lia)
           ltac:(lia) ltac:(lia)).
Defined.

Lemma weak_match_pass_shows_bare_frame_off_template :
  let st := tracking_state Mock.steady Mock.big_frame 1 0 2 2 in
  iteration Mock.steady (1, 0, 2, 2) (mkView 0%nat (0, 2) (1, 3)) None st
  = (Ok (Continue (Some (0%float, 0.5%float, (0, 0), (0, 0)))),
     mkState (heap st ++ [flip Mock.big_frame 1]) CamOpen ["Camera Feed"]
       2 2
       (log st ++
          [EvRead true;
           EvMatchTemplate (flip Mock.big_frame 1)
             (Mock.bgr [[2; 1]; [5; 4]]) MATCHING_METHOD;
           EvImshow "Camera Feed" (flip Mock.big_frame 1);
           EvWaitKey 1 (-1)])).
Proof.
  exact (@weak_match_pass_shows_bare_frame Mock.lib Mock.steady
           (1, 0, 2, 2) (mkView 0%nat (0, 2) (1, 3)) None
           (tracking_state Mock.steady Mock.big_frame 1 0 2 2)
           Mock.big_frame (0%float, 0.5%float, (0, 0), (0, 0))
           0%float 0.5%float (0, 0) (0, 0)
           eq_refl ltac:(cbn; lia) eq_refl eq_refl eq_refl).
Defined.

Lemma strong_match_pass_shows_boxed_frame_on_template :
  let st := tracking_state Mock.steady Mock.big_frame 0 0 2 2 in
  let green := Mock.BGR 0 255 0 in
  let boxed := [[green; green; green]; [green; green; green];
                [green; green; green]] in
  iteration Mock.steady (0, 0, 2, 2) (mkView 0%nat (0, 2) (0, 2)) None st
  = (Ok (Continue (Some (0%float, 0.95%float, (0, 0), (0, 0)))),
     mkState (heap st ++ [boxed]) CamOpen ["Camera Feed"] 2 2
       (log st ++
          [EvRead true;
           EvMatchTemplate (flip Mock.big_frame 1)
             (Mock.bgr [[3; 2]; [6; 5]]) MATCHING_METHOD;
           EvRectangle 1%nat (0, 0) (2, 2) (0, 255, 0) 2;
           EvPutText 1%nat "Match: 0.95" (0, -10) FONT_HERSHEY_SIMPLEX
             FONT_SIZE FONT_COLOR FONT_THICKNESS;
           EvImshow "Camera Feed" boxed;
           EvWaitKey 1 (-1)])).
Proof.
  exact (@strong_match_pass_shows_boxed_frame Mock.lib Mock.steady
           (mkView 0%nat (0, 2) (0, 2)) None
           (tracking_state Mock.steady Mock.big_frame 0 0 2 2)
           Mock.big_frame (0%float, 0.95%float, (0, 0), (0, 0))
           0%float 0.95%float (0, 0) 0 0 0 0 2 2
           eq_refl ltac:(cbn; lia) eq_refl eq_refl eq_refl).
Defined.

Lemma q_ends_the_run_in_first_pass :
  let st := tracking_state Mock.quitting Mock.big_frame 0 0 2 2 in
  exists st',
    (tracking_loop Mock.quitting 1 (0, 0, 2, 2)
       (mkView 0%nat (0, 2) (0, 2)) None ;;; cleanup) st
    = (Ok tt, st')
    /\ camera st' = CamClosed /\ windows st' = []
    /\ reads st' = 2%nat /\ keys st' = 2%nat.
Proof.
  exact (@q_ends_the_run Mock.lib Mock.quitting 0 (0, 0, 2, 2)
           (mkView 0%nat (0, 2) (0, 2)) None
           (tracking_state Mock.quitting Mock.big_frame 0 0 2 2)
           Mock.big_frame (0%float, 0.95%float, (0, 0), (0, 0))
           eq_refl eq_refl eq_refl).
Defined.

Lemma unassigned_result_ends_run_when_frame_shrinks :
  let st := tracking_state Mock.shrinking Mock.big_frame 0 0 2 2 in
  (tracking_loop Mock.shrinking 1 (0, 0, 2, 2)
     (mkView 0%nat (0, 2) (0, 2)) None ;;; cleanup) st
  = (Raise
       (mkExn UnboundLocalError
          "cannot access local variable 'result' where it is not associated with a value"),
     mkState (heap st ++ [flip Mock.strip_frame 1]) CamOpen [] 2 1
       (log st ++
          [EvRead true;
           EvMatchTemplate (Mock.bgr [[3; 2; 1]]) (Mock.bgr [[3; 2]; [6; 5]])
             MATCHING_METHOD;
           EvPrint ("Processing error: " +:+ Mock.size_error)])).
Proof.
  exact (@unassigned_result_ends_run_without_cleanup Mock.lib Mock.shrinking
           0 (0, 0, 2, 2) (mkView 0%nat (0, 2) (0, 2))
           (tracking_state Mock.shrinking Mock.big_frame 0 0 2 2)
           Mock.strip_frame Mock.size_error eq_refl eq_refl).
Defined.

Lemma main_returns_when_camera_stops_after_three_reads :
  exists st',
    main Mock.steady 3 initial_state = (Ok tt, st')
    /\ camera st' = CamClosed /\ windows st' = []
    /\ (reads st' <= 4)%nat.
Proof.
  apply (@main_returns_when_camera_stops Mock.lib Mock.steady 3 3
           Mock.big_frame 0 0 2 2);
    try reflexivity; try discriminate; try lia.
  intros n raw'. cbn.
  destruct (n <=? 2)%nat; [|discriminate].
  intros [= <-]. eexists. reflexivity.
Defined.

Lemma main_returns_without_camera_at_once :
  main Mock.no_camera 3 initial_state
  = (Ok tt,
     mkState [] CamClosed [] 0 0
       [EvVideoCapture 0; EvPrint "Error: Could not open camera"]).
Proof.
  exact (@main_returns_without_camera Mock.lib Mock.no_camera 3 eq_refl).
Defined.

Lemma main_raises_without_sample_when_unplugged :
  main Mock.unplugged 3 initial_state
  = (Raise (mkExn Exception "Failed to read frame from camera"),
     mkState [] CamOpen [] 1 0 [EvVideoCapture 0; EvRead false]).
Proof.
  exact (@main_raises_without_sample Mock.lib Mock.unplugged 3
           eq_refl eq_refl).
Defined.

Lemma nan_score_kept_and_not_drawn_at_nan :
  let result := (0%float, nan, (0, 0), (3, 4)) in
  @get_result Mock.lib result = (nan, (3, 4))
  /\ @annotate Mock.lib 0%nat (0, 0, 2, 2) (Some result) initial_state
     = (Ok tt, initial_state).
Proof.
  exact (@nan_score_kept_and_not_drawn Mock.lib
           (0%float, nan, (0, 0), (3, 4)) 0%float nan (0, 0) (3, 4)
           0%nat (0, 0, 2, 2) initial_state eq_refl eq_refl).
Defined.

Lemma faces_boxed_and_shown_once_in_still_scene :
  let green := Mock.BGR 0 255 0 in
  let boxed := [[green; green; Mock.BGR 1 1 1];
                [green; green; Mock.BGR 4 4 4];
                [Mock.BGR 9 9 9; Mock.BGR 8 8 8; Mock.BGR 7 7 7]] in
  let gray := Mock.grey [[3; 2; 1]; [6; 5; 4]; [9; 8; 7]] in
  ObjectDetection.script Mock.steady initial_state
  = (Ok tt,
     mkState [boxed; gray] CamClosed [] 1 1
       ([EvInput "Look at the camera. Press Enter to start face detection...";
         EvCascadeClassifier
           "/usr/share/opencv4/haarcascades/haarcascade_frontalface_default.xml";
         EvVideoCapture 0; EvRead true;
         EvCvtColor (flip Mock.big_frame 1) COLOR_BGR2GRAY;
         EvDetectMultiScale gray 1.1%float 5]
        ++ [EvRectangle 0%nat (0, 0) (1, 1) (0, 255, 0) 2]
        ++ [EvImshow "Face Detection" boxed;
            EvWaitKey 0 (-1); EvRelease; EvDestroyAllWindows])).
Proof.
  exact (@faces_boxed_and_shown_once Mock.lib Mock.steady Mock.big_frame
           (Mock.grey [[3; 2; 1]; [6; 5; 4]; [9; 8; 7]]) [(0, 0, 1, 1)]
           eq_refl eq_refl eq_refl eq_refl).
Defined.
